(** * page-refresh.js: the PageRefresh class

    A shallow embedding of [src/page-refresh/page-refresh.js] and of the
    ECMAScript and browser built-ins the class calls ([parseInt], Number
    arithmetic and printing, [Date], [URLSearchParams.get], [setTimeout],
    [clearTimeout]), followed by the properties of the class.

    Conventions.
    - A JavaScript string is the list of its UTF-16 code units.  Status
      messages are built by the class from ASCII literals and printed
      numbers only, and are kept as [string].
    - Every Number the class computes is NaN, an infinity, minus zero or an
      integer-valued double; [number] has exactly these values and the
      rounding of the arithmetic is written out ([round_to_double]).
    - Methods run in a state-and-exception monad over the pair of the host
      window and the [PageRefresh] object. *)

From stdpp Require Import base numbers option list strings gmap.
From Stdlib Require Import ZArith Lia Ascii String.

Local Open Scope Z_scope.

(** ** Numbers *)

Module Number.

(** The Number values that occur in the class.  [Fin z] is the double whose
    value is the integer [z] ([Fin 0] is +0); [Inf true] is -Infinity. *)
Inductive number : Type :=
| NaN
| NegZero
| Fin (z : Z)
| Inf (negative : bool).

#[global] Instance number_eq_dec : EqDecision number.
Proof. solve_decision. Defined.

Definition two53 : Z := 2 ^ 53.
Definition two1024 : Z := 2 ^ 1024.

(** Round a positive integer to the nearest double, ties to even: keep the
    53 leading bits.  The result is an integer again. *)
Definition round_magnitude (a : Z) : Z :=
  let bits := Z.log2 a + 1 in
  if bits <=? 53 then a
  else
    let sh := bits - 53 in
    let q := Z.shiftr a sh in
    let r := Z.land a (Z.ones sh) in
    let half := Z.shiftl 1 (sh - 1) in
    let q' := if (half <? r) || ((r =? half) && Z.odd q) then q + 1 else q in
    Z.shiftl q' sh.

(** The Number value of a mathematical integer (the specification's
    conversion from a mathematical value to a Number): +0 for zero, an
    infinity from 2^1024 on. *)
Definition round_to_double (z : Z) : number :=
  if z =? 0 then Fin 0
  else
    let m := round_magnitude (Z.abs z) in
    if two1024 <=? m then Inf (z <? 0)
    else Fin (Z.sgn z * m).

Definition isNaN (x : number) : bool :=
  match x with NaN => true | _ => false end.

Definition is_finite (x : number) : bool :=
  match x with NegZero | Fin _ => true | NaN | Inf _ => false end.

(** Sign bit and mathematical value of a finite Number. *)
Definition is_negative (x : number) : bool :=
  match x with
  | NegZero => true
  | Fin z => z <? 0
  | Inf n => n
  | NaN => false
  end.

Definition value_of (x : number) : Z :=
  match x with Fin z => z | _ => 0 end.

Definition is_zero (x : number) : bool :=
  match x with NegZero => true | Fin z => z =? 0 | _ => false end.

Definition signed_zero (negative : bool) : number :=
  if negative then NegZero else Fin 0.

(** [x < y] on Numbers: false as soon as an operand is NaN; the two zeros
    are equal. *)
Definition lessThan (x y : number) : bool :=
  match x, y with
  | NaN, _ | _, NaN => false
  | Inf true, Inf true => false
  | Inf true, _ => true
  | _, Inf true => false
  | Inf false, _ => false
  | _, Inf false => true
  | a, b => value_of a <? value_of b
  end.

Definition equal (x y : number) : bool :=
  match x, y with
  | NaN, _ | _, NaN => false
  | Inf a, Inf b => Bool.eqb a b
  | Inf _, _ | _, Inf _ => false
  | a, b => value_of a =? value_of b
  end.

(** [x <= y], [x >= y]. *)
Definition lessOrEqual (x y : number) : bool := lessThan x y || equal x y.
Definition greaterOrEqual (x y : number) : bool := lessOrEqual y x.

(** [x * y]. *)
Definition multiply (x y : number) : number :=
  match x, y with
  | NaN, _ | _, NaN => NaN
  | Inf a, b | b, Inf a =>
      if is_zero b then NaN else Inf (xorb a (is_negative b))
  | a, b =>
      if is_zero a || is_zero b
      then signed_zero (xorb (is_negative a) (is_negative b))
      else round_to_double (value_of a * value_of b)
  end.

(** [x + y]. *)
Definition add (x y : number) : number :=
  match x, y with
  | NaN, _ | _, NaN => NaN
  | Inf a, Inf b => if Bool.eqb a b then Inf a else NaN
  | Inf a, _ | _, Inf a => Inf a
  | NegZero, NegZero => NegZero
  | a, b => round_to_double (value_of a + value_of b)
  end.

(** Unary minus and [x - y]. *)
Definition negate (x : number) : number :=
  match x with
  | NaN => NaN
  | NegZero => Fin 0
  | Fin z => if z =? 0 then NegZero else Fin (- z)
  | Inf n => Inf (negb n)
  end.

Definition subtract (x y : number) : number := add x (negate y).

(** *** Printing *)

(** Decimal digits of a non-negative integer, most significant first.
    [fuel] bounds the number of digits after the first. *)
Fixpoint digits_aux (fuel : nat) (z : Z) (acc : list Z) : list Z :=
  match fuel with
  | O => z :: acc
  | S fuel' =>
      if z <? 10 then z :: acc
      else digits_aux fuel' (z / 10) (z mod 10 :: acc)
  end.

Definition decimal_digits (z : Z) : list Z :=
  digits_aux (Z.to_nat (Z.log2 z)) z [].

Definition digit_char (d : Z) : ascii := ascii_of_N (Z.to_N (48 + d)).

Fixpoint string_of_digits (ds : list Z) : string :=
  match ds with
  | [] => EmptyString
  | d :: ds' => String (digit_char d) (string_of_digits ds')
  end.

(** The decimal numeral of a non-negative integer. *)
Definition decimal (z : Z) : string := string_of_digits (decimal_digits z).

(** Number::toString, step 5: integers [s], [k], [n] with [k] digits in
    [s], the Number value of [s * 10^(n-k)] equal to [x], and [k] as small
    as possible; among several [s], the one whose value is closest to [x].
    For an integer-valued [x] of [d] digits, [n] is [d] (or [d + 1] when
    [x] is what [10^d] rounds to) and [s] is one of the two [k]-digit
    neighbours of [x / 10^(d-k)]. *)
Definition digit_candidates (z d k : Z) : list (Z * Z) :=
  let p := 10 ^ (d - k) in
  let ok (c : Z * Z) :=
    bool_decide (round_to_double (fst c * 10 ^ (snd c - k)) = Fin z)
    && (10 ^ (k - 1) <=? fst c) && (fst c <? 10 ^ k) in
  filter (fun c => Is_true (ok c))
    ([(z / p, d); (z / p + 1, d)] ++ if k =? 1 then [(1, d + 1)] else []).

Definition closer (z k : Z) (c1 c2 : Z * Z) : Z * Z :=
  let dist (c : Z * Z) := Z.abs (fst c * 10 ^ (snd c - k) - z) in
  if dist c2 <? dist c1 then c2
  else if (dist c2 =? dist c1) && Z.even (fst c2) then c2
  else c1.

Fixpoint shortest_aux (fuel : nat) (z d k : Z) : Z * Z * Z :=
  match fuel with
  | O => (z, d, d)
  | S fuel' =>
      match digit_candidates z d k with
      | c :: cs => let best := foldr (closer z k) c cs in (fst best, k, snd best)
      | [] => shortest_aux fuel' z d (k + 1)
      end
  end.

(** [(s, k, n)] for the positive integer-valued double [z]. *)
Definition shortest (z : Z) : Z * Z * Z :=
  let d := Z.of_nat (List.length (decimal_digits z)) in
  shortest_aux (Z.to_nat (Z.min d 17)) z d 1.

(** The digits of [shortest], as Number::toString lays them out: padded with
    zeros up to 21 digits, in exponent form from there. *)
Definition shortest_form (z : Z) : string :=
  let '(s, k, n) := shortest z in
  if n <=? 21 then decimal s +:+ string_of_digits (replicate (Z.to_nat (n - k)) 0)
  else
    match decimal_digits s with
    | [] => EmptyString
    | [d1] => string_of_digits [d1] +:+ "e+" +:+ decimal (n - 1)
    | d1 :: ds =>
        string_of_digits [d1] +:+ "." +:+ string_of_digits ds
        +:+ "e+" +:+ decimal (n - 1)
    end.

(** Number::toString of a positive integer-valued double.  Up to 2^53 every
    integer is a double, so the shortest digit string that reads back as
    [z] is the numeral of [z] itself. *)
Definition toString_positive (z : Z) : string :=
  if z <=? two53 then decimal z else shortest_form z.

(** Number::toString (radix 10). *)
Definition toString (x : number) : string :=
  match x with
  | NaN => "NaN"
  | NegZero => "0"
  | Inf false => "Infinity"
  | Inf true => "-Infinity"
  | Fin z =>
      if z =? 0 then "0"
      else if z <? 0 then "-" +:+ toString_positive (- z)
      else toString_positive z
  end.

End Number.

Import Number.

(** [String.prototype.padStart(maxLength, fillString)] for a one-character
    [fillString]. *)
Definition padStart (s : string) (maxLength : nat) (fill : ascii) : string :=
  string_of_list_ascii (replicate (maxLength - String.length s) fill) +:+ s.

(** ** Strings and [parseInt] *)

(** A JavaScript string: its UTF-16 code units. *)
Definition jsstring : Type := list N.

(** The code units of an ASCII literal. *)
Definition str (s : string) : jsstring := map N_of_ascii (list_ascii_of_string s).

(** The values [URLSearchParams.get] returns and the setup methods receive:
    [null] or a string. *)
Inductive value : Type :=
| Null
| Str (s : jsstring).

#[global] Instance value_eq_dec : EqDecision value.
Proof. solve_decision. Defined.

(** ToBoolean: [null] and the empty string are falsy. *)
Definition ToBoolean (v : value) : bool :=
  match v with
  | Null => false
  | Str [] => false
  | Str (_ :: _) => true
  end.

(** ToString. *)
Definition ToString (v : value) : jsstring :=
  match v with
  | Null => str "null"
  | Str s => s
  end.

(** WhiteSpace and LineTerminator code units (what [parseInt] skips):
    TAB, LF, VT, FF, CR, SP, NBSP, U+1680, U+2000 to U+200A, LS, PS, U+202F,
    U+205F, U+3000 and the byte order mark. *)
Definition is_white_space (c : N) : bool :=
  ((9 <=? c) && (c <=? 13) || (c =? 32) || (c =? 160) || (c =? 5760)
   || (8192 <=? c) && (c <=? 8202) || (c =? 8232) || (c =? 8233)
   || (c =? 8239) || (c =? 8287) || (c =? 12288) || (c =? 65279))%N.

Fixpoint trim_start (s : jsstring) : jsstring :=
  match s with
  | c :: s' => if is_white_space c then trim_start s' else s
  | [] => []
  end.

(** The value of a code unit as a digit: [0-9], [a-z], [A-Z]. *)
Definition digit_value (c : N) : option Z :=
  if ((48 <=? c) && (c <=? 57))%N then Some (Z.of_N c - 48)
  else if ((97 <=? c) && (c <=? 122))%N then Some (Z.of_N c - 87)
  else if ((65 <=? c) && (c <=? 90))%N then Some (Z.of_N c - 55)
  else None.

(** The digits of the longest prefix of [s] made of radix-[R] digits. *)
Fixpoint radix_digits (R : Z) (s : jsstring) : list Z :=
  match s with
  | c :: s' =>
      match digit_value c with
      | Some d => if d <? R then d :: radix_digits R s' else []
      | None => []
      end
  | [] => []
  end.

Definition radix_value (R : Z) (ds : list Z) : Z :=
  fold_left (fun acc d => acc * R + d) ds 0.

(** The steps of [parseInt] on the trimmed string: is there a minus sign;
    the string without its sign; the string without a [0x] or [0X] prefix
    when it has one. *)
Definition has_minus (s : jsstring) : bool :=
  match s with
  | c :: _ => (c =? 45)%N
  | [] => false
  end.

Definition strip_sign (s : jsstring) : jsstring :=
  match s with
  | c :: rest => if ((c =? 43) || (c =? 45))%N then rest else s
  | [] => []
  end.

Definition strip_hex_prefix (s : jsstring) : option jsstring :=
  match s with
  | c0 :: c1 :: rest =>
      if ((c0 =? 48) && ((c1 =? 120) || (c1 =? 88)))%N then Some rest else None
  | _ => None
  end.

(** [parseInt(string)] with no radix argument: skip white space, read a
    sign, read a [0x] or [0X] prefix (radix 16, else 10), take the longest
    prefix of digits; NaN when there is none, else the Number value of the
    signed integer, -0 for a negative zero.  (Past 20 significant decimal
    digits the language lets an implementation round from the first 20; the
    value here is the exact one.) *)
Definition parseInt (v : value) : number :=
  let S0 := trim_start (ToString v) in
  let negative := has_minus S0 in
  let S1 := strip_sign S0 in
  let '(R, S2) := match strip_hex_prefix S1 with
                  | Some rest => (16, rest)
                  | None => (10, S1)
                  end in
  match radix_digits R S2 with
  | [] => NaN
  | ds =>
      let mathInt := radix_value R ds in
      if mathInt =? 0 then signed_zero negative
      else round_to_double (if negative then - mathInt else mathInt)
  end.

(** [String.prototype.substring(start, end)] for [start <= end]. *)
Definition substring (s : jsstring) (start end_ : nat) : jsstring :=
  take (end_ - start) (drop start s).

(** ** Dates *)

Module Date.

Definition msPerSecond : Z := 1000.
Definition msPerMinute : Z := 60000.
Definition msPerHour : Z := 3600000.
Definition msPerDay : Z := 86400000.

(** The largest time value, 8.64e15 ms on either side of the epoch. *)
Definition maxTime : Z := 8640000000000000.

Definition Day (t : Z) : Z := t / msPerDay.
Definition TimeWithinDay (t : Z) : Z := t mod msPerDay.

Definition DaysInYear (y : Z) : Z :=
  if negb (y mod 4 =? 0) then 365
  else if negb (y mod 100 =? 0) then 366
  else if negb (y mod 400 =? 0) then 365
  else 366.

Definition DayFromYear (y : Z) : Z :=
  365 * (y - 1970) + (y - 1969) / 4 - (y - 1901) / 100 + (y - 1601) / 400.

(** The largest year [y] with [DayFromYear y <= Day t]: counted up from a
    year that is not after it (a year has 365 or 366 days). *)
Fixpoint year_search (fuel : nat) (y day : Z) : Z :=
  match fuel with
  | O => y
  | S fuel' =>
      if DayFromYear (y + 1) <=? day then year_search fuel' (y + 1) day else y
  end.

Definition YearFromTime (t : Z) : Z :=
  let day := Day t in
  year_search 1000 (1970 + (if 0 <=? day then day / 366 else day / 365)) day.

Definition InLeapYear (t : Z) : Z :=
  if DaysInYear (YearFromTime t) =? 366 then 1 else 0.

Definition DayWithinYear (t : Z) : Z := Day t - DayFromYear (YearFromTime t).

(** Day number within the year of the first day of month [m] (0 to 11). *)
Definition month_start (m leap : Z) : Z :=
  match m with
  | 0 => 0
  | 1 => 31
  | 2 => 59 + leap
  | 3 => 90 + leap
  | 4 => 120 + leap
  | 5 => 151 + leap
  | 6 => 181 + leap
  | 7 => 212 + leap
  | 8 => 243 + leap
  | 9 => 273 + leap
  | 10 => 304 + leap
  | _ => 334 + leap
  end.

Definition MonthFromTime (t : Z) : Z :=
  let d := DayWithinYear t in
  let leap := InLeapYear t in
  if d <? 31 then 0
  else if d <? 59 + leap then 1
  else if d <? 90 + leap then 2
  else if d <? 120 + leap then 3
  else if d <? 151 + leap then 4
  else if d <? 181 + leap then 5
  else if d <? 212 + leap then 6
  else if d <? 243 + leap then 7
  else if d <? 273 + leap then 8
  else if d <? 304 + leap then 9
  else if d <? 334 + leap then 10
  else 11.

Definition DateFromTime (t : Z) : Z :=
  DayWithinYear t - month_start (MonthFromTime t) (InLeapYear t) + 1.

(** ToIntegerOrInfinity on a finite Number of the class (all are
    integer-valued); both zeros give 0. *)
Definition integer_of (x : number) : Z := value_of x.

Definition MakeTime (hour min sec ms : number) : number :=
  if is_finite hour && is_finite min && is_finite sec && is_finite ms then
    let h := Fin (integer_of hour) in
    let m := Fin (integer_of min) in
    let s := Fin (integer_of sec) in
    let milli := Fin (integer_of ms) in
    add (add (add (multiply h (Fin msPerHour)) (multiply m (Fin msPerMinute)))
             (multiply s (Fin msPerSecond)))
        milli
  else NaN.

Definition MakeDay (year month date : number) : number :=
  if is_finite year && is_finite month && is_finite date then
    let y := integer_of year in
    let m := integer_of month in
    let dt := Fin (integer_of date) in
    let ym := y + m / 12 in
    let mn := m mod 12 in
    let leap := if DaysInYear ym =? 366 then 1 else 0 in
    let day_t := DayFromYear ym + month_start mn leap in
    subtract (add (round_to_double day_t) dt) (Fin 1)
  else NaN.

Definition MakeDate (day time : number) : number :=
  if is_finite day && is_finite time then
    let tv := add (multiply day (Fin msPerDay)) time in
    if is_finite tv then tv else NaN
  else NaN.

Definition TimeClip (time : number) : number :=
  if is_finite time then
    if maxTime <? Z.abs (value_of time) then NaN
    else Fin (integer_of time)
  else NaN.

Section LocalTimeZone.

(** The offset of local time from UTC, in milliseconds.  The zone is
    taken to keep one offset over the days the class looks at: no
    daylight-saving transition between the clock reading and the target
    time. *)
Variable LocalTZA : Z.

Definition LocalTime (t : Z) : Z := t + LocalTZA.

Definition UTC (t : number) : number :=
  if is_finite t then subtract t (Fin LocalTZA) else NaN.

(** [Date.prototype.setHours(hour, min, sec, ms)] on a date whose time
    value is [tv]; the result is the new time value. *)
Definition setHours (tv : number) (hour min sec ms : number) : number :=
  match tv with
  | NaN | Inf _ => NaN
  | _ =>
      let t := LocalTime (value_of tv) in
      let date := MakeDate (Fin (Day t)) (MakeTime hour min sec ms) in
      TimeClip (UTC date)
  end.

(** [Date.prototype.getDate()]. *)
Definition getDate (tv : number) : number :=
  match tv with
  | NaN | Inf _ => NaN
  | _ => Fin (DateFromTime (LocalTime (value_of tv)))
  end.

(** [Date.prototype.setDate(date)]; the result is the new time value. *)
Definition setDate (tv : number) (date : number) : number :=
  match tv with
  | NaN | Inf _ => NaN
  | _ =>
      let t := LocalTime (value_of tv) in
      let newDate :=
        MakeDate (MakeDay (Fin (YearFromTime t)) (Fin (MonthFromTime t)) date)
                 (Fin (TimeWithinDay t)) in
      TimeClip (UTC newDate)
  end.

End LocalTimeZone.

End Date.

(** ** The host window *)

(** What a timer does when it fires; both timers of the class run
    [window.location.reload()]. *)
Inductive action : Type := reload.

(** A pending one-shot timer: the handler and the [timeout] argument, in
    milliseconds, as [setTimeout] received it. *)
Record timer : Type := { handler : action; timeout : number }.

(** The part of the browser the class talks to.
    - [location_search]: the name-value list that
      [new URLSearchParams(window.location.search)] holds, in order;
    - [clock n]: the time value the [n]-th [new Date()] of the page reads,
      [reads] the number of readings so far;
    - [timers]: the pending timers by handle; [next_handle] the handle the
      next [setTimeout] returns (handles are integers greater than zero). *)
Record window : Type := {
  location_search : list (jsstring * jsstring);
  LocalTZA : Z;
  clock : nat -> Z;
  reads : nat;
  timers : gmap positive timer;
  next_handle : positive
}.

(** ** The object *)

Record RefreshAt : Type := {
  hours : number;
  minutes : number;
  targetTime : number   (* the time value of the Date object *)
}.

Record Config : Type := {
  refreshEvery : option number;
  refreshAt : option RefreshAt;
  statusMessages : list string
}.

Record PageRefresh : Type := {
  refreshEveryTimeout : option positive;
  refreshAtTimeout : option positive;
  config : Config
}.

Record state : Type := { win : window; self : PageRefresh }.

(** ** Completions *)

Inductive exception : Type := TypeError.

Inductive completion (A : Type) : Type :=
| Normal (a : A)
| Throw (e : exception).
Arguments Normal {A} a.
Arguments Throw {A} e.

(** A method body: from the state before to a result and the state after, or
    to an exception. *)
Definition JS (A : Type) : Type := state -> completion (A * state).

#[global] Instance JS_ret : MRet JS := fun A a st => Normal (a, st).
#[global] Instance JS_bind : MBind JS := fun A B f m st =>
  match m st with
  | Normal (a, st') => f a st'
  | Throw e => Throw e
  end.

Definition throw {A : Type} (e : exception) : JS A := fun _ => Throw e.
Definition get_window : JS window := fun st => Normal (win st, st).
Definition get_self : JS PageRefresh := fun st => Normal (self st, st).
Definition put_window (w : window) : JS unit :=
  fun st => Normal (tt, {| win := w; self := self st |}).
Definition put_self (o : PageRefresh) : JS unit :=
  fun st => Normal (tt, {| win := win st; self := o |}).
Definition put_config (c : Config) : JS unit :=
  o ← get_self;
  put_self {| refreshEveryTimeout := refreshEveryTimeout o;
              refreshAtTimeout := refreshAtTimeout o;
              config := c |}.

(** ** Built-ins with effects *)

(** [new URLSearchParams(window.location.search).get(name)]: the value of the
    first pair with that name, [null] when there is none. *)
Fixpoint URLSearchParams_get (l : list (jsstring * jsstring)) (name : jsstring) : value :=
  match l with
  | [] => Null
  | (n, v) :: l' => if decide (n = name) then Str v else URLSearchParams_get l' name
  end.

(** [new Date()]: the next reading of the clock. *)
Definition new_Date : JS number :=
  w ← get_window;
  put_window {| location_search := location_search w; LocalTZA := LocalTZA w;
                clock := clock w; reads := S (reads w);
                timers := timers w; next_handle := next_handle w |};;
  mret (Fin (clock w (reads w))).

(** [setTimeout(handler, timeout)]: a new pending timer; its handle. *)
Definition setTimeout (f : action) (ms : number) : JS positive :=
  w ← get_window;
  let h := next_handle w in
  put_window {| location_search := location_search w; LocalTZA := LocalTZA w;
                clock := clock w; reads := reads w;
                timers := <[h := {| handler := f; timeout := ms |}]> (timers w);
                next_handle := Pos.succ h |};;
  mret h.

(** [clearTimeout(handle)]: the timer is no longer pending. *)
Definition clearTimeout (h : positive) : JS unit :=
  w ← get_window;
  put_window {| location_search := location_search w; LocalTZA := LocalTZA w;
                clock := clock w; reads := reads w;
                timers := delete h (timers w);
                next_handle := next_handle w |}.

(** [v.toString()]: a TypeError on [null]. *)
Definition method_toString (v : value) : JS jsstring :=
  match v with
  | Null => throw TypeError
  | Str s => mret s
  end.

(** ** The class *)

Definition Invalid_refresh_every : string :=
  "Invalid refresh_every parameter (must be a positive number)".
Definition Invalid_refresh_at : string :=
  "Invalid refresh_at parameter (format should be hhmm, e.g., 1430 for 2:30 PM)".
Definition No_refresh_parameters : string :=
  "No refresh parameters detected - page will not auto-refresh".
Definition Enabled_every (seconds : number) : string :=
  "Auto-refresh enabled: Page will refresh every " +:+ toString seconds +:+ " seconds".
Definition Enabled_at (hours minutes : number) : string :=
  "Auto-refresh enabled: Page will refresh at " +:+ padStart (toString hours) 2 "0"
  +:+ ":" +:+ padStart (toString minutes) 2 "0" +:+ ":00".

(** [new PageRefresh()]. *)
Definition constructor : PageRefresh :=
  {| refreshEveryTimeout := None;
     refreshAtTimeout := None;
     config := {| refreshEvery := None; refreshAt := None; statusMessages := [] |} |}.

(** [this.config.statusMessages.push(msg)]. *)
Definition push_status (msg : string) : JS unit :=
  o ← get_self;
  let c := config o in
  put_config {| refreshEvery := refreshEvery c; refreshAt := refreshAt c;
                statusMessages := statusMessages c ++ [msg] |}.

Definition set_refreshEvery (seconds : number) : JS unit :=
  o ← get_self;
  let c := config o in
  put_config {| refreshEvery := Some seconds; refreshAt := refreshAt c;
                statusMessages := statusMessages c |}.

Definition set_refreshAt (r : RefreshAt) : JS unit :=
  o ← get_self;
  let c := config o in
  put_config {| refreshEvery := refreshEvery c; refreshAt := Some r;
                statusMessages := statusMessages c |}.

Definition set_refreshEveryTimeout (h : option positive) : JS unit :=
  o ← get_self;
  put_self {| refreshEveryTimeout := h; refreshAtTimeout := refreshAtTimeout o;
              config := config o |}.

Definition set_refreshAtTimeout (h : option positive) : JS unit :=
  o ← get_self;
  put_self {| refreshEveryTimeout := refreshEveryTimeout o; refreshAtTimeout := h;
              config := config o |}.

Definition getQueryParam (param : jsstring) : JS value :=
  w ← get_window;
  mret (URLSearchParams_get (location_search w) param).

Definition setupRefreshEvery (refreshEvery : value) : JS bool :=
  let seconds := parseInt refreshEvery in
  if isNaN seconds || lessOrEqual seconds (Fin 0) then
    push_status Invalid_refresh_every;;
    mret false
  else
    set_refreshEvery seconds;;
    push_status (Enabled_every seconds);;
    h ← setTimeout reload (multiply seconds (Fin 1000));
    set_refreshEveryTimeout (Some h);;
    mret true.

Definition setupRefreshAt (refreshAt : value) : JS bool :=
  timeStr ← method_toString refreshAt;
  if negb (List.length timeStr =? 4)%nat then
    push_status Invalid_refresh_at;;
    mret false
  else
    let hours := parseInt (Str (substring timeStr 0 2)) in
    let minutes := parseInt (Str (substring timeStr 2 4)) in
    if lessThan hours (Fin 0) || greaterOrEqual hours (Fin 24)
       || lessThan minutes (Fin 0) || greaterOrEqual minutes (Fin 60) then
      push_status Invalid_refresh_at;;
      mret false
    else
      now ← new_Date;
      targetTime ← new_Date;
      w ← get_window;
      let tza := LocalTZA w in
      let targetTime := Date.setHours tza targetTime hours minutes (Fin 0) (Fin 0) in
      let targetTime :=
        if lessOrEqual targetTime now
        then Date.setDate tza targetTime (add (Date.getDate tza targetTime) (Fin 1))
        else targetTime in
      let timeUntilRefresh := subtract targetTime now in
      set_refreshAt {| hours := hours; minutes := minutes; targetTime := targetTime |};;
      push_status (Enabled_at hours minutes);;
      h ← setTimeout reload timeUntilRefresh;
      set_refreshAtTimeout (Some h);;
      mret true.

Definition init : JS Config :=
  refreshEvery ← getQueryParam (str "refresh_every");
  refreshAt ← getQueryParam (str "refresh_at");
  (if ToBoolean refreshEvery then _ ← setupRefreshEvery refreshEvery; mret tt
   else mret tt);;
  (if ToBoolean refreshAt then _ ← setupRefreshAt refreshAt; mret tt
   else mret tt);;
  (if negb (ToBoolean refreshEvery) && negb (ToBoolean refreshAt)
   then push_status No_refresh_parameters
   else mret tt);;
  o ← get_self;
  mret (config o).

Definition cancel : JS unit :=
  o ← get_self;
  match refreshEveryTimeout o with
  | Some h => clearTimeout h;; set_refreshEveryTimeout None
  | None => mret tt
  end;;
  o ← get_self;
  match refreshAtTimeout o with
  | Some h => clearTimeout h;; set_refreshAtTimeout None
  | None => mret tt
  end.

Definition getConfig : JS Config :=
  o ← get_self;
  mret (config o).

(** ** A page load *)

(** The window of a page that has just been loaded with the given query
    parameters: no timer pending, no clock reading made. *)
Definition fresh_window (search : list (jsstring * jsstring)) (tza : Z)
    (clk : nat -> Z) : window :=
  {| location_search := search; LocalTZA := tza; clock := clk; reads := 0;
     timers := ∅; next_handle := 1%positive |}.

(** [new PageRefresh()] on that page. *)
Definition page_load (search : list (jsstring * jsstring)) (tza : Z)
    (clk : nat -> Z) : state :=
  {| win := fresh_window search tza clk; self := constructor |}.

(** The state a method leaves, when it returns. *)
Definition state_after {A : Type} (r : completion (A * state)) : option state :=
  match r with
  | Normal (_, st) => Some st
  | Throw _ => None
  end.

(** The pending timer behind a handle of the object. *)
Definition pending (st : state) (h : option positive) : option timer :=
  h ≫= fun h => timers (win st) !! h.

(** * Vocabulary of the properties

    State transformers, observations and reference values that the lemmas
    and theorems below are stated with. *)

Import Date.

(** ** What each method does to the state *)

(** The state with one more status message. *)
Definition with_status (msg : string) (st : state) : state :=
  {| win := win st;
     self := {| refreshEveryTimeout := refreshEveryTimeout (self st);
                refreshAtTimeout := refreshAtTimeout (self st);
                config := {| refreshEvery := refreshEvery (config (self st));
                             refreshAt := refreshAt (config (self st));
                             statusMessages :=
                               statusMessages (config (self st)) ++ [msg] |} |} |}.

(** The window with one more pending timer. *)
Definition with_timer (ms : number) (w : window) : window :=
  {| location_search := location_search w; LocalTZA := LocalTZA w;
     clock := clock w; reads := reads w;
     timers := <[next_handle w := {| handler := reload; timeout := ms |}]> (timers w);
     next_handle := Pos.succ (next_handle w) |}.

(** The guard of [setupRefreshEvery]. *)
Definition every_rejected (seconds : number) : bool :=
  isNaN seconds || lessOrEqual seconds (Fin 0).

(** The state [setupRefreshEvery] leaves when it accepts [seconds]. *)
Definition armed_every (seconds : number) (st : state) : state :=
  {| win := with_timer (multiply seconds (Fin 1000)) (win st);
     self := {| refreshEveryTimeout := Some (next_handle (win st));
                refreshAtTimeout := refreshAtTimeout (self st);
                config := {| refreshEvery := Some seconds;
                             refreshAt := refreshAt (config (self st));
                             statusMessages :=
                               statusMessages (config (self st))
                               ++ [Enabled_every seconds] |} |} |}.

(** The guards of [setupRefreshAt]: the length test, then the range test on
    the two parsed halves. *)
Definition at_hours (s : jsstring) : number := parseInt (Str (substring s 0 2)).
Definition at_minutes (s : jsstring) : number := parseInt (Str (substring s 2 4)).

Definition out_of_range (h m : number) : bool :=
  lessThan h (Fin 0) || greaterOrEqual h (Fin 24)
  || lessThan m (Fin 0) || greaterOrEqual m (Fin 60).

Definition at_rejected (s : jsstring) : bool :=
  negb (List.length s =? 4)%nat || out_of_range (at_hours s) (at_minutes s).

(** The target time [setupRefreshAt] computes from the two clock readings
    [now] and [t0] (the value of the second [new Date()]). *)
Definition target_time (tza : Z) (now t0 h m : number) : number :=
  let t := Date.setHours tza t0 h m (Fin 0) (Fin 0) in
  if lessOrEqual t now
  then Date.setDate tza t (add (Date.getDate tza t) (Fin 1))
  else t.

Definition read_twice (w : window) : window :=
  {| location_search := location_search w; LocalTZA := LocalTZA w;
     clock := clock w; reads := S (S (reads w));
     timers := timers w; next_handle := next_handle w |}.

(** The state [setupRefreshAt] leaves when it accepts [h] and [m]. *)
Definition armed_at (h m : number) (st : state) : state :=
  let w := win st in
  let now := Fin (clock w (reads w)) in
  let t0 := Fin (clock w (S (reads w))) in
  let target := target_time (LocalTZA w) now t0 h m in
  {| win := with_timer (subtract target now) (read_twice w);
     self := {| refreshEveryTimeout := refreshEveryTimeout (self st);
                refreshAtTimeout := Some (next_handle w);
                config := {| refreshEvery := refreshEvery (config (self st));
                             refreshAt := Some {| hours := h; minutes := m;
                                                  targetTime := target |};
                             statusMessages :=
                               statusMessages (config (self st))
                               ++ [Enabled_at h m] |} |} |}.

(** The three steps of [init], as functions of the state. *)
Definition after_every (v : value) (st : state) : state :=
  if ToBoolean v then
    if every_rejected (parseInt v) then with_status Invalid_refresh_every st
    else armed_every (parseInt v) st
  else st.

Definition after_at (v : value) (st : state) : state :=
  match v with
  | Str (c :: s) =>
      if at_rejected (c :: s) then with_status Invalid_refresh_at st
      else armed_at (at_hours (c :: s)) (at_minutes (c :: s)) st
  | _ => st
  end.

Definition after_none (every at_ : value) (st : state) : state :=
  if negb (ToBoolean every) && negb (ToBoolean at_)
  then with_status No_refresh_parameters st
  else st.

Definition query_every (st : state) : value :=
  URLSearchParams_get (location_search (win st)) (str "refresh_every").
Definition query_at (st : state) : value :=
  URLSearchParams_get (location_search (win st)) (str "refresh_at").

Definition after_init (st : state) : state :=
  after_none (query_every st) (query_at st)
    (after_at (query_at st) (after_every (query_every st) st)).

(** [cancel], as a function of the state. *)
Definition without_timer (h : positive) (w : window) : window :=
  {| location_search := location_search w; LocalTZA := LocalTZA w;
     clock := clock w; reads := reads w;
     timers := delete h (timers w);
     next_handle := next_handle w |}.

Definition cancel_every (st : state) : state :=
  match refreshEveryTimeout (self st) with
  | Some h =>
      {| win := without_timer h (win st);
         self := {| refreshEveryTimeout := None;
                    refreshAtTimeout := refreshAtTimeout (self st);
                    config := config (self st) |} |}
  | None => st
  end.

Definition cancel_at (st : state) : state :=
  match refreshAtTimeout (self st) with
  | Some h =>
      {| win := without_timer h (win st);
         self := {| refreshEveryTimeout := refreshEveryTimeout (self st);
                    refreshAtTimeout := None;
                    config := config (self st) |} |}
  | None => st
  end.

(** An object with no timer armed. *)
Definition unarmed (w : window) (c : Config) : state :=
  {| win := w;
     self := {| refreshEveryTimeout := None; refreshAtTimeout := None; config := c |} |}.

(** The pending timers once the timer of a handle, if any, is cleared. *)
Definition cleared (h : option positive) (m : gmap positive timer) : gmap positive timer :=
  match h with
  | Some h => delete h m
  | None => m
  end.

(** ** Status messages *)

(** The messages each step of [init] appends. *)
Definition every_messages (v : value) : list string :=
  if ToBoolean v then
    [if every_rejected (parseInt v) then Invalid_refresh_every
     else Enabled_every (parseInt v)]
  else [].

Definition at_messages (v : value) : list string :=
  match v with
  | Str (c :: s) =>
      [if at_rejected (c :: s) then Invalid_refresh_at
       else Enabled_at (at_hours (c :: s)) (at_minutes (c :: s))]
  | _ => []
  end.

Definition none_messages (every at_ : value) : list string :=
  if negb (ToBoolean every) && negb (ToBoolean at_) then [No_refresh_parameters] else [].

Abbreviation messages st := (statusMessages (config (self st))).

(** A method run from [st] returns and appends exactly [ms] to the status
    messages. *)
Definition produces {A : Type} (m : JS A) (st : state) (ms : list string) : Prop :=
  exists a st', m st = Normal (a, st') /\ messages st' = messages st ++ ms.

(** ** A fresh page after init *)

(** The two parameters of a query string. *)
Definition param_every (search : list (jsstring * jsstring)) : value :=
  URLSearchParams_get search (str "refresh_every").
Definition param_at (search : list (jsstring * jsstring)) : value :=
  URLSearchParams_get search (str "refresh_at").

Definition every_accepted (v : value) : bool :=
  ToBoolean v && negb (every_rejected (parseInt v)).

Definition at_accepted (v : value) : bool :=
  match v with
  | Str (c :: s) => negb (at_rejected (c :: s))
  | _ => false
  end.

(** What the page shows of a directive once [init()] is done: the stored
    value and the pending timer of its handle. *)
Definition every_outcome (st : state) : option number * option timer :=
  (refreshEvery (config (self st)), pending st (refreshEveryTimeout (self st))).

Definition at_outcome (st : state) : option RefreshAt * option timer :=
  (refreshAt (config (self st)), pending st (refreshAtTimeout (self st))).

(** The same, computed from the value of the parameter alone (and, for
    [refresh_at], the time zone and the two clock readings). *)
Definition every_expected (v : value) : option number * option timer :=
  if ToBoolean v && negb (every_rejected (parseInt v))
  then (Some (parseInt v),
        Some {| handler := reload; timeout := multiply (parseInt v) (Fin 1000) |})
  else (None, None).

Definition at_expected (v : value) (tza : Z) (clk : nat -> Z)
    : option RefreshAt * option timer :=
  match v with
  | Str (c :: s) =>
      if at_rejected (c :: s) then (None, None)
      else
        let h := at_hours (c :: s) in
        let m := at_minutes (c :: s) in
        let now := Fin (clk 0%nat) in
        let target := target_time tza now (Fin (clk 1%nat)) h m in
        (Some {| hours := h; minutes := m; targetTime := target |},
         Some {| handler := reload; timeout := subtract target now |})
  | _ => (None, None)
  end.

(** The status message of each directive in the final list, by position:
    [init()] handles [refresh_every] first, and each handled directive appends
    exactly one message. *)
Definition every_message (search : list (jsstring * jsstring)) (c : Config) : option string :=
  if ToBoolean (param_every search) then statusMessages c !! 0%nat else None.

Definition at_message (search : list (jsstring * jsstring)) (c : Config) : option string :=
  if ToBoolean (param_at search)
  then statusMessages c !! (if ToBoolean (param_every search) then 1 else 0)%nat
  else None.

(** ** Numerals and times *)

(** The code unit of a decimal digit, and the string of decimal digits of a
    non-negative integer, as a query string carries it. *)
Definition digit_code (d : Z) : N := Z.to_N (48 + d).

Definition numeral (z : Z) : jsstring := map digit_code (decimal_digits z).

Definition is_digit (d : Z) : Prop := 0 <= d < 10.

Definition is_digit_code (c : N) : Prop := (48 <= c <= 57)%N.

(** Time values and local times the class can meet: within the range of the
    Date type, give or take a few days for the time zone. *)
Definition time_in_range (t : Z) : Prop := Z.abs t <= maxTime + 3 * msPerDay.

(** Today at h:m:00.000, as a time value: the local day of the instant [now],
    at h:m local time. *)
Definition today_at (tza now h m : Z) : Z :=
  Day (now + tza) * msPerDay + h * msPerHour + m * msPerMinute - tza.

(** The next occurrence of h:m strictly after [now]: today's if it is still
    to come, tomorrow's otherwise. *)
Definition next_occurrence (tza now h m : Z) : Z :=
  if now <? today_at tza now h m then today_at tza now h m
  else today_at tza now h m + msPerDay.

(** The scenarios of the specification, at 10:00 (2026-11-03T10:00:00Z) in
    a UTC zone: what [init()] returns and the timers it leaves pending. *)
Definition scenario (search : list (jsstring * jsstring))
    : option (Config * list (positive * timer)) :=
  match init (page_load search 0 (fun _ => 1793700000000)) with
  | Normal (c, st') => Some (c, map_to_list (timers (win st')))
  | Throw _ => None
  end.

(** ** Vocabulary of the further properties *)

(** A string of white space, and a string that does not go on with a
    decimal digit. *)
Definition all_white_space (ws : jsstring) : Prop :=
  Forall (fun c => is_white_space c = true) ws.

Definition no_digit_next (rest : jsstring) : Prop :=
  match rest with
  | [] => True
  | c :: _ => ~ is_digit_code c
  end.

(** The four-character string of the decimal digits [d1 d2 d3 d4]. *)
Definition hhmm (d1 d2 d3 d4 : Z) : jsstring := map digit_code [d1; d2; d3; d4].

(** Two decimal digits, printed. *)
Definition two_digits (d1 d2 : Z) : string :=
  String (digit_char d1) (String (digit_char d2) EmptyString).

(** A stored hour or minute: NaN, minus zero, or an integer from 0 to [hi]. *)
Definition NaN_or_within (hi : Z) (x : number) : Prop :=
  x = NaN \/ x = NegZero \/ exists z : Z, 0 <= z <= hi /\ x = Fin z.

(** * Properties *)

(** ** The built-ins, evaluated *)

Example toString_examples :
  toString (Fin 30) = "30"%string
  /\ toString (Fin (2 ^ 53)) = "9007199254740992"%string
  /\ toString (round_to_double (2 ^ 53 + 1)) = "9007199254740992"%string
  /\ toString (round_to_double (2 ^ 64)) = "18446744073709552000"%string
  /\ toString (round_to_double (2 ^ 60)) = "1152921504606847000"%string
  /\ toString (round_to_double (10 ^ 21)) = "1e+21"%string
  /\ toString (round_to_double (10 ^ 23)) = "1e+23"%string
  /\ toString (round_to_double (123456789012345678901234)) = "1.2345678901234569e+23"%string
  /\ toString (round_to_double (- (2 ^ 70))) = "-1.1805916207174113e+21"%string
  /\ toString (round_to_double (10 ^ 400)) = "Infinity"%string
  /\ padStart (toString (Fin 7)) 2 "0" = "07"%string
  /\ padStart (toString NaN) 2 "0" = "NaN"%string.
Proof. vm_compute. repeat split. Qed.

Example shortest_form_below_two53 :
  Forall (fun z => shortest_form z = decimal z)
    [1; 7; 10; 30; 1200; 86400; 123456789; 4294967296; 9007199254740000;
     9007199254740991; 9007199254740992].
Proof. repeat constructor. Qed.

Example parseInt_examples :
  parseInt (Str (str "30")) = Fin 30
  /\ parseInt (Str (str "  42px")) = Fin 42
  /\ parseInt (Str (str "-7")) = Fin (-7)
  /\ parseInt (Str (str "+7")) = Fin 7
  /\ parseInt (Str (str "-0")) = NegZero
  /\ parseInt (Str (str "0x1f")) = Fin 31
  /\ parseInt (Str (str "-0X1F")) = Fin (-31)
  /\ parseInt (Str (str "+-1")) = NaN
  /\ parseInt (Str (str "0x")) = NaN
  /\ parseInt (Str (str "1e3")) = Fin 1
  /\ parseInt (Str (str "abc")) = NaN
  /\ parseInt (Str (str "")) = NaN
  /\ parseInt Null = NaN
  /\ parseInt (Str (str "9007199254740993")) = Fin 9007199254740992
  /\ parseInt (Str (substring (str "1430") 0 2)) = Fin 14
  /\ parseInt (Str (substring (str "1430") 2 4)) = Fin 30.
Proof. vm_compute. repeat split. Qed.

(** 2026-11-03T10:00:00.000Z is 1793700000000; a zone one hour east of
    Greenwich reads it as 11:00. *)
Example date_examples :
  Date.YearFromTime 1793700000000 = 2026
  /\ Date.MonthFromTime 1793700000000 = 10
  /\ Date.DateFromTime 1793700000000 = 3
  /\ Date.YearFromTime (-1) = 1969
  /\ Date.MonthFromTime (-1) = 11
  /\ Date.DateFromTime (-1) = 31
  /\ Date.YearFromTime 951782400000 = 2000
  /\ Date.DateFromTime 951782400000 = 29
  /\ Date.YearFromTime Date.maxTime = 275760
  /\ Date.YearFromTime (- Date.maxTime) = -271821
  /\ Date.setHours 3600000 (Fin 1793700000000) (Fin 14) (Fin 30) (Fin 0) (Fin 0)
     = Fin 1793712600000
  /\ Date.setHours 3600000 (Fin 1793700000000) NaN (Fin 30) (Fin 0) (Fin 0) = NaN
  /\ Date.setDate 3600000 (Fin 1793700000000)
       (add (Date.getDate 3600000 (Fin 1793700000000)) (Fin 1))
     = Fin (1793700000000 + Date.msPerDay)
  /\ Date.setDate 0 (Fin 951782400000) (add (Date.getDate 0 (Fin 951782400000)) (Fin 1))
     = Fin (951782400000 + Date.msPerDay).
Proof. vm_compute. repeat split. Qed.

(** Scenario C: [?refresh_at=0900] at 10:00 gives tomorrow 09:00; and exactly
    at 10:00:00.000, [?refresh_at=1000] gives tomorrow 10:00. *)
Example refresh_at_passed_rolls_over :
  target_time 0 (Fin 1793700000000) (Fin 1793700000000) (Fin 9) (Fin 0)
  = Fin (1793700000000 + 23 * msPerHour)
  /\ target_time 0 (Fin 1793700000000) (Fin 1793700000000) (Fin 10) (Fin 0)
     = Fin (1793700000000 + msPerDay)
  /\ target_time 3600000 (Fin 1793700000000) (Fin 1793700000000) (Fin 10) (Fin 0)
     = Fin (1793700000000 + 23 * msPerHour).
Proof. vm_compute. repeat split. Qed.

(** ** Numbers that are exact *)

Lemma round_to_double_exact (z : Z) :
  Z.abs z < 2 ^ 53 -> round_to_double z = Fin z.
Proof.
  intros Hz. unfold round_to_double.
  destruct (Z.eqb_spec z 0) as [->|Hnz]; [reflexivity|].
  assert (Hm : round_magnitude (Z.abs z) = Z.abs z).
  { unfold round_magnitude.
    assert (Z.log2 (Z.abs z) < 53) by (apply Z.log2_lt_pow2; lia).
    destruct (Z.leb_spec (Z.log2 (Z.abs z) + 1) 53); [reflexivity | lia]. }
  rewrite Hm.
  assert (2 ^ 53 < two1024) by reflexivity.
  destruct (Z.leb_spec two1024 (Z.abs z)); [lia|].
  f_equal. lia.
Qed.

Lemma add_exact (a b : Z) :
  Z.abs (a + b) < 2 ^ 53 -> add (Fin a) (Fin b) = Fin (a + b).
Proof. intros H. cbn [add value_of]. apply round_to_double_exact, H. Qed.

Lemma multiply_exact (a b : Z) :
  0 < b -> Z.abs (a * b) < 2 ^ 53 -> multiply (Fin a) (Fin b) = Fin (a * b).
Proof.
  intros Hb H. cbn [multiply is_zero value_of is_negative].
  destruct (Z.eqb_spec a 0) as [->|Ha].
  - cbn [orb]. destruct (Z.ltb_spec b 0); [lia | reflexivity].
  - destruct (Z.eqb_spec b 0); [lia|].
    cbn [orb]. apply round_to_double_exact, H.
Qed.

Lemma subtract_exact (a b : Z) :
  Z.abs (a - b) < 2 ^ 53 -> subtract (Fin a) (Fin b) = Fin (a - b).
Proof.
  intros H. unfold subtract. cbn [negate].
  destruct (Z.eqb_spec b 0) as [->|Hb].
  - cbn [add value_of]. rewrite Z.sub_0_r in *. rewrite Z.add_0_r.
    apply round_to_double_exact, H.
  - apply add_exact, H.
Qed.

Lemma toString_small (z : Z) :
  0 < z <= 2 ^ 53 -> toString (Fin z) = decimal z.
Proof.
  intros Hz. cbn [toString].
  destruct (Z.eqb_spec z 0); [lia|].
  destruct (Z.ltb_spec z 0); [lia|].
  unfold toString_positive, two53.
  destruct (Z.leb_spec z (2 ^ 53)); [reflexivity | lia].
Qed.

(** What [setupRefreshEvery] accepts is a positive Number. *)
Lemma every_accepted_positive (x : number) :
  every_rejected x = false -> (exists n : Z, 0 < n /\ x = Fin n) \/ x = Inf false.
Proof.
  unfold every_rejected, lessOrEqual.
  destruct x as [| |z|[|]]; cbn; try discriminate; [|auto].
  destruct (Z.ltb_spec z 0); [discriminate|].
  destruct (Z.eqb_spec z 0); [discriminate|].
  intros _. left. exists z. split; [lia | reflexivity].
Qed.

Lemma round_magnitude_positive (a : Z) : 0 < a -> 0 < round_magnitude a.
Proof.
  intros Ha. unfold round_magnitude.
  destruct (Z.leb_spec (Z.log2 a + 1) 53) as [|Hbits]; [exact Ha|].
  set (sh := Z.log2 a + 1 - 53).
  assert (Hsh : 0 <= sh <= Z.log2 a) by (unfold sh; lia).
  assert (Hq : 1 <= Z.shiftr a sh).
  { rewrite Z.shiftr_div_pow2 by lia.
    apply Z.div_le_lower_bound; [apply Z.pow_pos_nonneg; lia|].
    rewrite Z.mul_1_r.
    transitivity (2 ^ Z.log2 a); [apply Z.pow_le_mono_r; lia|].
    apply Z.log2_spec, Ha. }
  rewrite Z.shiftl_mul_pow2 by lia.
  apply Z.mul_pos_pos; [|apply Z.pow_pos_nonneg; lia].
  destruct (_ || _); lia.
Qed.

(** The Number value of a positive integer is a positive integer or
    +Infinity. *)
Lemma round_to_double_positive (z : Z) :
  0 < z -> (exists n : Z, 0 < n /\ round_to_double z = Fin n) \/ round_to_double z = Inf false.
Proof.
  intros Hz. unfold round_to_double.
  destruct (Z.eqb_spec z 0); [lia|].
  pose proof (round_magnitude_positive (Z.abs z) ltac:(lia)) as Hm.
  destruct (two1024 <=? round_magnitude (Z.abs z)).
  - right. destruct (Z.ltb_spec z 0); [lia | reflexivity].
  - left. eexists. split; [|reflexivity]. replace (Z.sgn z) with 1 by lia. lia.
Qed.

Lemma positive_accepted (x : number) :
  (exists n : Z, 0 < n /\ x = Fin n) \/ x = Inf false -> every_rejected x = false.
Proof.
  intros [(n & Hn & ->)| ->]; [|reflexivity].
  unfold every_rejected, lessOrEqual. cbn [isNaN lessThan equal value_of orb].
  destruct (Z.ltb_spec n 0); [lia|]. destruct (Z.eqb_spec n 0); [lia | reflexivity].
Qed.

(** ** Decimal numerals *)

Lemma digits_aux_value (fuel : nat) (z : Z) (acc : list Z) :
  fold_left (fun a d => a * 10 + d) (digits_aux fuel z acc) 0
  = fold_left (fun a d => a * 10 + d) acc z.
Proof.
  revert z acc. induction fuel as [|fuel IH]; intros z acc; cbn [digits_aux].
  - reflexivity.
  - destruct (z <? 10); [reflexivity|].
    rewrite IH. cbn [fold_left]. f_equal.
    pose proof (Z.div_mod z 10). lia.
Qed.

Lemma radix_value_decimal_digits (z : Z) : radix_value 10 (decimal_digits z) = z.
Proof. unfold radix_value, decimal_digits. apply digits_aux_value. Qed.

Lemma digits_aux_digits (fuel : nat) (z : Z) (acc : list Z) :
  0 <= z < 10 * 2 ^ Z.of_nat fuel ->
  Forall is_digit acc -> Forall is_digit (digits_aux fuel z acc).
Proof.
  revert z acc. induction fuel as [|fuel IH]; intros z acc Hz Hacc; cbn [digits_aux].
  - constructor; [|exact Hacc]. change (2 ^ Z.of_nat 0) with 1 in Hz. unfold is_digit. lia.
  - destruct (Z.ltb_spec z 10).
    + constructor; [|exact Hacc]. unfold is_digit. lia.
    + apply IH.
      * rewrite Nat2Z.inj_succ, Z.pow_succ_r in Hz by lia.
        split; [apply Z.div_pos; lia|].
        apply Z.div_lt_upper_bound; lia.
      * constructor; [|exact Hacc]. unfold is_digit.
        pose proof (Z.mod_pos_bound z 10). lia.
Qed.

Lemma decimal_digits_digits (z : Z) : 0 <= z -> Forall is_digit (decimal_digits z).
Proof.
  intros Hz. unfold decimal_digits. apply digits_aux_digits; [|constructor].
  split; [exact Hz|].
  rewrite Z2Nat.id by apply Z.log2_nonneg.
  destruct (Z.eq_dec z 0) as [->|Hnz]; [reflexivity|].
  pose proof (Z.log2_spec z ltac:(lia)) as [_ Hlt].
  rewrite Z.pow_succ_r in Hlt by apply Z.log2_nonneg.
  pose proof (Z.pow_pos_nonneg 2 (Z.log2 z) ltac:(lia) (Z.log2_nonneg z)). lia.
Qed.

Lemma digits_aux_cons (fuel : nat) (z : Z) (acc : list Z) :
  exists d ds, digits_aux fuel z acc = d :: ds.
Proof.
  revert z acc. induction fuel as [|fuel IH]; intros z acc; cbn [digits_aux].
  - eauto.
  - destruct (z <? 10); [eauto | apply IH].
Qed.

Lemma digit_code_range (d : Z) : is_digit d -> is_digit_code (digit_code d).
Proof. unfold is_digit, is_digit_code, digit_code. lia. Qed.

Lemma digit_value_code (d : Z) : is_digit d -> digit_value (digit_code d) = Some d.
Proof.
  unfold is_digit, digit_value, digit_code. intros Hd.
  destruct (N.leb_spec 48 (Z.to_N (48 + d))); [|lia].
  destruct (N.leb_spec (Z.to_N (48 + d)) 57); [|lia].
  cbn [andb]. f_equal. lia.
Qed.

Lemma radix_digits_codes (ds : list Z) :
  Forall is_digit ds -> radix_digits 10 (map digit_code ds) = ds.
Proof.
  induction 1 as [|d ds Hd _ IH]; [reflexivity|].
  cbn [map radix_digits]. rewrite (digit_value_code d Hd).
  destruct (Z.ltb_spec d 10); [|unfold is_digit in Hd; lia].
  rewrite IH. reflexivity.
Qed.

Ltac decide_N_tests :=
  repeat match goal with
    | |- context [(?a <=? ?b)%N] => destruct (N.leb_spec a b); try lia
    | |- context [(?a =? ?b)%N] => destruct (N.eqb_spec a b); try lia
    end.

Lemma digit_not_white_space (c : N) : is_digit_code c -> is_white_space c = false.
Proof. unfold is_digit_code, is_white_space. intros Hc. decide_N_tests; try reflexivity. Qed.

Lemma parseInt_digits (ds : list Z) :
  ds <> [] -> Forall is_digit ds ->
  parseInt (Str (map digit_code ds)) =
  if radix_value 10 ds =? 0 then Fin 0 else round_to_double (radix_value 10 ds).
Proof.
  intros Hne Hds.
  pose proof (radix_digits_codes _ Hds) as Hr.
  destruct ds as [|d0 ds]; [congruence|].
  inversion Hds as [|? ? Hd0 Hds']; subst.
  pose proof (digit_code_range d0 Hd0) as Hc0.
  unfold parseInt. cbn [ToString map trim_start] in *.
  rewrite (digit_not_white_space _ Hc0).
  assert (Hminus : has_minus (digit_code d0 :: map digit_code ds) = false).
  { unfold has_minus, is_digit_code in *. decide_N_tests; try reflexivity. }
  assert (Hsign : strip_sign (digit_code d0 :: map digit_code ds)
                  = digit_code d0 :: map digit_code ds).
  { unfold strip_sign, is_digit_code in *. decide_N_tests; try reflexivity. }
  assert (Hhex : strip_hex_prefix (digit_code d0 :: map digit_code ds) = None).
  { destruct ds as [|d1 ds]; [reflexivity|].
    inversion Hds' as [|? ? Hd1 _]; subst.
    pose proof (digit_code_range d1 Hd1) as Hc1.
    unfold strip_hex_prefix, is_digit_code in *. cbn [map]. decide_N_tests; try reflexivity. }
  rewrite Hminus, Hsign, Hhex, Hr. reflexivity.
Qed.

Lemma parseInt_numeral (N : Z) : 0 < N -> parseInt (Str (numeral N)) = round_to_double N.
Proof.
  intros HN. unfold numeral. rewrite parseInt_digits.
  - rewrite radix_value_decimal_digits.
    destruct (Z.eqb_spec N 0); [lia | reflexivity].
  - unfold decimal_digits.
    destruct (digits_aux_cons (Z.to_nat (Z.log2 N)) N []) as (d & ds & ->). discriminate.
  - apply decimal_digits_digits. lia.
Qed.

(** ** Dates: the day after *)

Lemma year_search_bounds (fuel : nat) (y day : Z) :
  y <= year_search fuel y day <= y + Z.of_nat fuel.
Proof.
  revert y. induction fuel as [|fuel IH]; intros y; cbn [year_search]; [lia|].
  destruct (DayFromYear (y + 1) <=? day); [|lia].
  specialize (IH (y + 1)). lia.
Qed.

Lemma Day_bounds (t : Z) : time_in_range t -> -100000004 <= Day t <= 100000003.
Proof.
  unfold time_in_range, Day, maxTime, msPerDay. intros H.
  Z.div_mod_to_equations. lia.
Qed.

Lemma year_search_spec (fuel : nat) (y day : Z) :
  DayFromYear y <= day < DayFromYear (y + Z.of_nat fuel) ->
  DayFromYear (year_search fuel y day) <= day < DayFromYear (year_search fuel y day + 1).
Proof.
  revert y. induction fuel as [|fuel IH]; intros y Hy; cbn [year_search].
  - change (Z.of_nat 0) with 0 in Hy. rewrite Z.add_0_r in Hy. lia.
  - destruct (Z.leb_spec (DayFromYear (y + 1)) day) as [Hle|Hgt]; [|lia].
    apply IH. replace (y + 1 + Z.of_nat fuel) with (y + Z.of_nat (S fuel)) by lia. lia.
Qed.

(** [YearFromTime t] is the year of [t]: the year whose first day is not
    after the day of [t] and whose successor's first day is. *)
Lemma YearFromTime_spec (t : Z) :
  time_in_range t ->
  DayFromYear (YearFromTime t) <= Day t < DayFromYear (YearFromTime t + 1).
Proof.
  intros Ht. apply Day_bounds in Ht. unfold YearFromTime.
  apply year_search_spec. change (Z.of_nat 1000) with 1000.
  unfold DayFromYear.
  destruct (Z.leb_spec 0 (Day t)); Z.div_mod_to_equations; lia.
Qed.

Lemma YearFromTime_bounds (t : Z) :
  time_in_range t -> -280000 <= YearFromTime t <= 280000.
Proof.
  intros H. apply Day_bounds in H. unfold YearFromTime.
  pose proof (year_search_bounds 1000
                (1970 + (if 0 <=? Day t then Day t / 366 else Day t / 365)) (Day t)) as Hy.
  change (Z.of_nat 1000) with 1000 in Hy.
  destruct (0 <=? Day t); Z.div_mod_to_equations; lia.
Qed.

Lemma DayFromYear_bounds (y : Z) :
  -280000 <= y <= 280000 -> -110000000 <= DayFromYear y <= 110000000.
Proof. unfold DayFromYear. intros H. Z.div_mod_to_equations. lia. Qed.

Lemma MonthFromTime_range (t : Z) : 0 <= MonthFromTime t <= 11.
Proof.
  unfold MonthFromTime.
  repeat match goal with |- context [if ?b then _ else _] => destruct b end; lia.
Qed.

Lemma InLeapYear_range (t : Z) : 0 <= InLeapYear t <= 1.
Proof. unfold InLeapYear. destruct (_ =? _); lia. Qed.

Lemma month_start_bounds (m leap : Z) : 0 <= leap <= 1 -> 0 <= month_start m leap <= 335.
Proof.
  intros H. unfold month_start.
  repeat match goal with |- context [match ?x with _ => _ end] => destruct x end; lia.
Qed.

(** [MakeDay] of the year and month of [t] and of the day after the date of
    [t] is the day after the day of [t]: the date counts from the first of the
    month, whose day number is all that the year and the month contribute. *)
Lemma MakeDay_next_date (t : Z) :
  time_in_range t ->
  MakeDay (Fin (YearFromTime t)) (Fin (MonthFromTime t)) (Fin (DateFromTime t + 1))
  = Fin (Day t + 1).
Proof.
  intros Ht.
  pose proof (Day_bounds t Ht) as Hday.
  pose proof (YearFromTime_bounds t Ht) as Hy.
  pose proof (DayFromYear_bounds _ Hy) as Hdy.
  pose proof (MonthFromTime_range t) as Hm.
  pose proof (InLeapYear_range t) as Hl.
  pose proof (month_start_bounds (MonthFromTime t) (InLeapYear t) Hl) as Hms.
  unfold MakeDay. cbn [is_finite andb integer_of value_of].
  rewrite (Z.div_small (MonthFromTime t) 12), (Z.mod_small (MonthFromTime t) 12),
    Z.add_0_r by lia.
  fold (InLeapYear t).
  assert (Hsmall : 2 ^ 53 = 9007199254740992) by reflexivity.
  unfold DateFromTime, DayWithinYear in *.
  rewrite round_to_double_exact by lia.
  rewrite add_exact by lia.
  rewrite subtract_exact by lia.
  f_equal. lia.
Qed.

Lemma two53_value : 2 ^ 53 = 9007199254740992.
Proof. reflexivity. Qed.

(** [setDate(getDate() + 1)] moves a date one day ahead. *)
Lemma setDate_next_day (tza tv : Z) :
  Z.abs tv + msPerDay <= maxTime -> Z.abs tza <= msPerDay ->
  setDate tza (Fin tv) (add (getDate tza (Fin tv)) (Fin 1)) = Fin (tv + msPerDay).
Proof.
  intros Htv Htza. unfold setDate, getDate, LocalTime. cbn [value_of].
  set (t := tv + tza).
  assert (Ht : time_in_range t) by (unfold time_in_range, t, maxTime, msPerDay in *; lia).
  pose proof (Day_bounds t Ht) as Hday.
  pose proof (YearFromTime_bounds t Ht) as Hy.
  pose proof (DayFromYear_bounds _ Hy) as Hdy.
  pose proof (InLeapYear_range t) as Hl.
  pose proof (month_start_bounds (MonthFromTime t) (InLeapYear t) Hl) as Hms.
  pose proof two53_value as H53.
  rewrite add_exact by (unfold DateFromTime, DayWithinYear; lia).
  rewrite MakeDay_next_date by exact Ht.
  assert (Htw : 0 <= TimeWithinDay t < msPerDay).
  { unfold TimeWithinDay. apply Z.mod_pos_bound. reflexivity. }
  assert (Hsplit : t = Day t * msPerDay + TimeWithinDay t).
  { unfold Day, TimeWithinDay. pose proof (Z.div_mod t msPerDay). lia. }
  unfold MakeDate. cbn [is_finite andb].
  unfold msPerDay, maxTime in *.
  rewrite multiply_exact by lia.
  rewrite add_exact by lia. cbn [is_finite].
  unfold UTC. cbn [is_finite]. rewrite subtract_exact by lia.
  unfold TimeClip, maxTime. cbn [is_finite value_of integer_of].
  match goal with |- context [?a <? ?b] => destruct (Z.ltb_spec a b); [lia|] end.
  f_equal. lia.
Qed.

(** [setHours(h, m, 0, 0)] gives the local day of the date, at h:m. *)
Lemma MakeTime_value (h m : Z) :
  0 <= h <= 23 -> 0 <= m <= 59 ->
  MakeTime (Fin h) (Fin m) (Fin 0) (Fin 0) = Fin (h * msPerHour + m * msPerMinute).
Proof.
  intros Hh Hm. pose proof two53_value as H53.
  unfold MakeTime. cbn [is_finite andb integer_of value_of].
  unfold msPerHour, msPerMinute, msPerSecond.
  rewrite (multiply_exact h), (multiply_exact m), (multiply_exact 0) by lia.
  rewrite (add_exact (h * 3600000)) by lia.
  rewrite (add_exact (h * 3600000 + m * 60000)) by lia.
  rewrite (add_exact (h * 3600000 + m * 60000 + 0 * 1000)) by lia.
  f_equal. lia.
Qed.

Lemma setHours_value (tza tv h m : Z) :
  Z.abs tv + msPerDay <= maxTime -> Z.abs tza <= msPerDay ->
  0 <= h <= 23 -> 0 <= m <= 59 ->
  setHours tza (Fin tv) (Fin h) (Fin m) (Fin 0) (Fin 0)
  = Fin (Day (tv + tza) * msPerDay + h * msPerHour + m * msPerMinute - tza).
Proof.
  intros Htv Htza Hh Hm. unfold setHours, LocalTime. cbn [value_of].
  rewrite MakeTime_value by assumption.
  set (t := tv + tza).
  assert (Ht : time_in_range t) by (unfold time_in_range, t, maxTime, msPerDay in *; lia).
  pose proof (Day_bounds t Ht) as Hday.
  pose proof two53_value as H53.
  assert (Htw : 0 <= TimeWithinDay t < msPerDay).
  { unfold TimeWithinDay. apply Z.mod_pos_bound. reflexivity. }
  assert (Hsplit : t = Day t * msPerDay + TimeWithinDay t).
  { unfold Day, TimeWithinDay. pose proof (Z.div_mod t msPerDay). lia. }
  assert (Hdef : t = tv + tza) by reflexivity.
  unfold MakeDate. cbn [is_finite andb].
  unfold msPerDay, msPerHour, msPerMinute, maxTime in *.
  rewrite (multiply_exact (Day t)) by lia.
  rewrite (add_exact (Day t * 86400000)) by lia. cbn [is_finite].
  unfold UTC. cbn [is_finite]. rewrite subtract_exact by lia.
  unfold TimeClip, maxTime. cbn [is_finite value_of integer_of].
  match goal with |- context [?a <? ?b] => destruct (Z.ltb_spec a b); [lia|] end.
  f_equal. lia.
Qed.

Lemma in_range_accepted (h m : Z) :
  0 <= h <= 23 -> 0 <= m <= 59 -> out_of_range (Fin h) (Fin m) = false.
Proof.
  intros Hh Hm. unfold out_of_range, greaterOrEqual, lessOrEqual.
  cbn [lessThan equal value_of].
  destruct (Z.ltb_spec h 0); [lia|]. destruct (Z.ltb_spec 24 h); [lia|].
  destruct (Z.eqb_spec 24 h); [lia|]. destruct (Z.ltb_spec m 0); [lia|].
  destruct (Z.ltb_spec 60 m); [lia|]. destruct (Z.eqb_spec 60 m); [lia|].
  reflexivity.
Qed.

(** The two clock readings of [setupRefreshAt] are [now] and [now']; the
    second is not before the first and less than a minute after it. *)
Lemma target_time_value (tza now now' h m : Z) :
  0 <= h <= 23 -> 0 <= m <= 59 ->
  now <= now' < now + msPerMinute ->
  Z.abs now + 3 * msPerDay <= maxTime ->
  Z.abs tza <= msPerDay ->
  target_time tza (Fin now) (Fin now') (Fin h) (Fin m) = Fin (next_occurrence tza now h m)
  /\ now < next_occurrence tza now h m.
Proof.
  intros Hh Hm Hclock Hnow Htza.
  unfold target_time, next_occurrence, today_at.
  assert (Hnow' : Z.abs now' + msPerDay <= maxTime)
    by (unfold msPerDay, msPerMinute, maxTime in *; lia).
  rewrite setHours_value by assumption.
  set (T0 := Day (now' + tza) * msPerDay + h * msPerHour + m * msPerMinute - tza).
  set (T1 := Day (now + tza) * msPerDay + h * msPerHour + m * msPerMinute - tza).
  assert (HT0 : T0 = Day (now' + tza) * msPerDay + h * msPerHour + m * msPerMinute - tza)
    by reflexivity.
  assert (HT1 : T1 = Day (now + tza) * msPerDay + h * msPerHour + m * msPerMinute - tza)
    by reflexivity.
  clearbody T0 T1.
  assert (Hrel : (T0 = T1 /\ (T0 <= now \/ now < T0))
                 \/ (T0 = T1 + msPerDay /\ T1 < now /\ now < T0)).
  { unfold Day, msPerDay, msPerHour, msPerMinute, maxTime in *.
    Z.div_mod_to_equations. lia. }
  assert (Hnext : now < T1 + msPerDay).
  { unfold Day, msPerDay, msPerHour, msPerMinute, maxTime in *.
    Z.div_mod_to_equations. lia. }
  assert (HT0r : Z.abs T0 + msPerDay <= maxTime).
  { unfold Day, msPerDay, msPerHour, msPerMinute, maxTime in *.
    Z.div_mod_to_equations. lia. }
  unfold lessOrEqual. cbn [lessThan equal value_of].
  destruct (Z.ltb_spec T0 now) as [Hlt|Hge]; cbn [orb].
  - rewrite setDate_next_day by assumption.
    destruct (Z.ltb_spec now T1); unfold msPerDay in *; split; try f_equal; lia.
  - destruct (Z.eqb_spec T0 now) as [Heq|Hne].
    + rewrite setDate_next_day by assumption.
      destruct (Z.ltb_spec now T1); unfold msPerDay in *; split; try f_equal; lia.
    + destruct (Z.ltb_spec now T1); unfold msPerDay in *; split; try f_equal; lia.
Qed.

(** ** The methods as functions of the state *)

Lemma setupRefreshEvery_spec (v : value) (st : state) :
  setupRefreshEvery v st =
  if every_rejected (parseInt v)
  then Normal (false, with_status Invalid_refresh_every st)
  else Normal (true, armed_every (parseInt v) st).
Proof.
  unfold setupRefreshEvery, every_rejected.
  destruct (isNaN (parseInt v) || lessOrEqual (parseInt v) (Fin 0)); reflexivity.
Qed.

Lemma setupRefreshAt_spec (s : jsstring) (st : state) :
  setupRefreshAt (Str s) st =
  if at_rejected s
  then Normal (false, with_status Invalid_refresh_at st)
  else Normal (true, armed_at (at_hours s) (at_minutes s) st).
Proof.
  unfold setupRefreshAt, at_rejected, out_of_range, at_hours, at_minutes.
  cbv beta iota delta [method_toString mbind JS_bind mret JS_ret].
  destruct (List.length s =? 4)%nat; cbn [negb orb]; [|reflexivity].
  destruct (lessThan _ _ || greaterOrEqual _ _ || lessThan _ _ || greaterOrEqual _ _);
    reflexivity.
Qed.

Lemma setupRefreshAt_null (st : state) : setupRefreshAt Null st = Throw TypeError.
Proof. reflexivity. Qed.

Lemma init_spec (st : state) :
  init st = Normal (config (self (after_init st)), after_init st).
Proof.
  unfold init, after_init, getQueryParam.
  cbv beta iota delta [mbind JS_bind mret JS_ret get_window get_self].
  fold (query_every st) (query_at st).
  unfold after_every, after_none.
  destruct (ToBoolean (query_every st)) eqn:Hre.
  - rewrite setupRefreshEvery_spec.
    destruct (every_rejected (parseInt (query_every st)));
      (destruct (query_at st) as [|[|c s]]; cbn [ToBoolean negb andb after_at after_none];
       [reflexivity | reflexivity |]);
      rewrite setupRefreshAt_spec; destruct (at_rejected (c :: s)); reflexivity.
  - destruct (query_at st) as [|[|c s]]; cbn [ToBoolean negb andb after_at after_none];
      [reflexivity | reflexivity |].
    rewrite setupRefreshAt_spec; destruct (at_rejected (c :: s)); reflexivity.
Qed.

Lemma cancel_spec (st : state) : cancel st = Normal (tt, cancel_at (cancel_every st)).
Proof.
  destruct st as [w [[h1|] [h2|] c]]; reflexivity.
Qed.

(** ** init: the status messages *)

Lemma messages_after_every (v : value) (st : state) :
  messages (after_every v st) = messages st ++ every_messages v.
Proof.
  unfold after_every, every_messages.
  destruct (ToBoolean v); [|symmetry; apply app_nil_r].
  destruct (every_rejected (parseInt v)); reflexivity.
Qed.

Lemma messages_after_at (v : value) (st : state) :
  messages (after_at v st) = messages st ++ at_messages v.
Proof.
  destruct v as [|[|c s]]; cbn [after_at at_messages];
    try (symmetry; apply app_nil_r).
  destruct (at_rejected (c :: s)); reflexivity.
Qed.

Lemma messages_after_none (every at_ : value) (st : state) :
  messages (after_none every at_ st) = messages st ++ none_messages every at_.
Proof.
  unfold after_none, none_messages.
  destruct (negb (ToBoolean every) && negb (ToBoolean at_));
    [reflexivity | symmetry; apply app_nil_r].
Qed.

Lemma messages_after_init (st : state) :
  messages (after_init st) =
  messages st ++ every_messages (query_every st) ++ at_messages (query_at st)
  ++ none_messages (query_every st) (query_at st).
Proof.
  unfold after_init.
  rewrite messages_after_none, messages_after_at, messages_after_every.
  rewrite <- !app_assoc. reflexivity.
Qed.

Lemma init_appends_some_message (every at_ : value) :
  every_messages every ++ at_messages at_ ++ none_messages every at_ <> [].
Proof.
  unfold every_messages, none_messages.
  destruct (ToBoolean every); [discriminate|].
  destruct at_ as [|[|c s]]; discriminate.
Qed.

(** The three kinds of message differ in their first letters. *)
Lemma Enabled_every_not_none (x : number) : Enabled_every x <> No_refresh_parameters.
Proof. discriminate. Qed.

Lemma Enabled_at_not_none (h m : number) : Enabled_at h m <> No_refresh_parameters.
Proof. discriminate. Qed.

Lemma none_not_in_every_messages (v : value) :
  No_refresh_parameters ∉ every_messages v.
Proof.
  unfold every_messages. destruct (ToBoolean v); [|apply not_elem_of_nil].
  intros H. apply list_elem_of_singleton in H.
  destruct (every_rejected (parseInt v)); discriminate H.
Qed.

Lemma none_not_in_at_messages (v : value) :
  No_refresh_parameters ∉ at_messages v.
Proof.
  destruct v as [|[|c s]]; cbn [at_messages]; try apply not_elem_of_nil.
  intros H. apply list_elem_of_singleton in H.
  destruct (at_rejected (c :: s)); discriminate H.
Qed.

Lemma setupRefreshEvery_produces (v : value) (st : state) :
  ToBoolean v = true -> produces (setupRefreshEvery v) st (every_messages v).
Proof.
  intros Hv. unfold produces, every_messages. rewrite Hv, setupRefreshEvery_spec.
  destruct (every_rejected (parseInt v)); eauto.
Qed.

Lemma setupRefreshAt_produces (v : value) (st : state) :
  ToBoolean v = true -> produces (setupRefreshAt v) st (at_messages v).
Proof.
  destruct v as [|[|c s]]; [discriminate.. |]. intros _.
  unfold produces. cbn [at_messages]. rewrite setupRefreshAt_spec.
  destruct (at_rejected (c :: s)); eauto.
Qed.

(** ** init on a fresh page *)

Section FreshPage.

Variable search : list (jsstring * jsstring).
Variable tza : Z.
Variable clk : nat -> Z.

Let st : state := page_load search tza clk.
Let every : value := param_every search.
Let at_ : value := param_at search.

(** Every combination of absent, empty, rejected and accepted values. *)
Ltac init_cases :=
  unfold after_init, after_none, after_every;
  change (query_every (page_load search tza clk)) with every;
  change (query_at (page_load search tza clk)) with at_;
  destruct (ToBoolean every); [destruct (every_rejected (parseInt every))|];
  (destruct at_ as [|[|c s]]; cbn [after_at ToBoolean negb andb];
   [| | destruct (at_rejected (c :: s))]).

Lemma every_outcome_after_init :
  every_outcome (after_init (page_load search tza clk))
  = every_expected (param_every search).
Proof.
  unfold every_expected. fold every. init_cases; reflexivity.
Qed.

Lemma at_outcome_after_init :
  at_outcome (after_init (page_load search tza clk))
  = at_expected (param_at search) tza clk.
Proof.
  unfold at_expected. fold at_. init_cases; reflexivity.
Qed.

Lemma messages_of_page_load :
  messages (after_init (page_load search tza clk))
  = every_messages (param_every search) ++ at_messages (param_at search)
    ++ none_messages (param_every search) (param_at search).
Proof. apply (messages_after_init (page_load search tza clk)). Qed.

(** The handles after [init()] on a fresh page: the first timer armed gets
    handle 1, the second handle 2. *)
Lemma handles_after_init :
  let st' := after_init (page_load search tza clk) in
  let every_ok := every_accepted (param_every search) in
  let at_ok := at_accepted (param_at search) in
  refreshEveryTimeout (self st') = (if every_ok then Some 1%positive else None)
  /\ refreshAtTimeout (self st') =
     (if at_ok then Some (if every_ok then 2%positive else 1%positive) else None)
  /\ size (timers (win st')) =
     ((if every_ok then 1 else 0) + (if at_ok then 1 else 0))%nat.
Proof.
  unfold every_accepted, at_accepted. fold every at_. cbv zeta.
  init_cases; repeat split.
Qed.

End FreshPage.

Lemma every_message_after_init (search : list (jsstring * jsstring)) (tza : Z)
    (clk : nat -> Z) :
  every_message search (config (self (after_init (page_load search tza clk))))
  = head (every_messages (param_every search)).
Proof.
  unfold every_message. rewrite messages_of_page_load. unfold every_messages.
  destruct (ToBoolean (param_every search)); reflexivity.
Qed.

Lemma at_message_after_init (search : list (jsstring * jsstring)) (tza : Z)
    (clk : nat -> Z) :
  at_message search (config (self (after_init (page_load search tza clk))))
  = head (at_messages (param_at search)).
Proof.
  unfold at_message. rewrite messages_of_page_load. unfold every_messages.
  destruct (ToBoolean (param_every search));
    destruct (param_at search) as [|[|c s]]; reflexivity.
Qed.

(** ** The scenarios of the specification *)

Example scenario_A :
  scenario [(str "refresh_every", str "30")]
  = Some ({| refreshEvery := Some (Fin 30); refreshAt := None;
             statusMessages :=
               ["Auto-refresh enabled: Page will refresh every 30 seconds"%string] |},
          [(1%positive, {| handler := reload; timeout := Fin 30000 |})]).
Proof. vm_compute. reflexivity. Qed.

Example scenario_B :
  scenario [(str "refresh_at", str "1430")]
  = Some ({| refreshEvery := None;
             refreshAt := Some {| hours := Fin 14; minutes := Fin 30;
                                  targetTime := Fin (1793700000000 + 16200000) |};
             statusMessages :=
               ["Auto-refresh enabled: Page will refresh at 14:30:00"%string] |},
          [(1%positive, {| handler := reload; timeout := Fin 16200000 |})]).
Proof. vm_compute. reflexivity. Qed.

Example scenario_C :
  scenario [(str "refresh_at", str "0900")]
  = Some ({| refreshEvery := None;
             refreshAt := Some {| hours := Fin 9; minutes := Fin 0;
                                  targetTime := Fin (1793700000000 + 82800000) |};
             statusMessages :=
               ["Auto-refresh enabled: Page will refresh at 09:00:00"%string] |},
          [(1%positive, {| handler := reload; timeout := Fin 82800000 |})]).
Proof. vm_compute. reflexivity. Qed.

Example scenario_D :
  scenario [(str "refresh_every", str "abc")]
  = Some ({| refreshEvery := None; refreshAt := None;
             statusMessages := [Invalid_refresh_every] |}, []).
Proof. vm_compute. reflexivity. Qed.

Example scenario_E :
  scenario []
  = Some ({| refreshEvery := None; refreshAt := None;
             statusMessages := [No_refresh_parameters] |}, []).
Proof. vm_compute. reflexivity. Qed.

Example scenario_F :
  scenario [(str "refresh_every", str "60"); (str "refresh_at", str "1500")]
  = Some ({| refreshEvery := Some (Fin 60);
             refreshAt := Some {| hours := Fin 15; minutes := Fin 0;
                                  targetTime := Fin (1793700000000 + 18000000) |};
             statusMessages :=
               ["Auto-refresh enabled: Page will refresh every 60 seconds"%string;
                "Auto-refresh enabled: Page will refresh at 15:00:00"%string] |},
          [(2%positive, {| handler := reload; timeout := Fin 18000000 |});
           (1%positive, {| handler := reload; timeout := Fin 60000 |})]).
Proof. vm_compute. reflexivity. Qed.

(** ** refresh_at: validation (C1) *)

(** The two checks that [setupRefreshAt] makes do reject. *)
Lemma setupRefreshAt_wrong_length (s : jsstring) (st : state) :
  List.length s <> 4%nat ->
  setupRefreshAt (Str s) st = Normal (false, with_status Invalid_refresh_at st).
Proof.
  intros Hlen. rewrite setupRefreshAt_spec. unfold at_rejected.
  destruct (Nat.eqb_spec (List.length s) 4); [contradiction | reflexivity].
Qed.

Lemma setupRefreshAt_out_of_range (s : jsstring) (st : state) (h m : Z) :
  at_hours s = Fin h -> at_minutes s = Fin m ->
  ~ (0 <= h <= 23 /\ 0 <= m <= 59) ->
  setupRefreshAt (Str s) st = Normal (false, with_status Invalid_refresh_at st).
Proof.
  intros Hh Hm Hout. rewrite setupRefreshAt_spec.
  assert (Hr : out_of_range (Fin h) (Fin m) = true).
  { unfold out_of_range, greaterOrEqual, lessOrEqual. cbn [lessThan equal value_of].
    destruct (Z.ltb_spec h 0); [reflexivity|].
    destruct (Z.ltb_spec 24 h); [reflexivity|].
    destruct (Z.eqb_spec 24 h); [reflexivity|].
    destruct (Z.ltb_spec m 0); [reflexivity|].
    destruct (Z.ltb_spec 60 m); [reflexivity|].
    destruct (Z.eqb_spec 60 m); [reflexivity|]. lia. }
  unfold at_rejected. rewrite Hh, Hm, Hr, orb_true_r. reflexivity.
Qed.

(** C1 fails on a four-character value that is not a number: both halves of
    [abcd] parse to NaN, every comparison with NaN is false, so the range test
    lets it through.  [setupRefreshAt] returns [true], stores NaN hours,
    NaN minutes and an invalid date, appends a confirmation, and arms a timer
    whose timeout is NaN. *)
Theorem setupRefreshAt_accepts_abcd (st : state) :
  exists st', setupRefreshAt (Str (str "abcd")) st = Normal (true, st')
    /\ at_hours (str "abcd") = NaN
    /\ at_minutes (str "abcd") = NaN
    /\ refreshAt (config (self st'))
       = Some {| hours := NaN; minutes := NaN; targetTime := NaN |}
    /\ refreshAtTimeout (self st') = Some (next_handle (win st))
    /\ timers (win st')
       = <[next_handle (win st) := {| handler := reload; timeout := NaN |}]> (timers (win st))
    /\ messages st'
       = messages st ++ ["Auto-refresh enabled: Page will refresh at NaN:NaN:00"%string].
Proof.
  exists (armed_at NaN NaN st).
  split; [rewrite setupRefreshAt_spec; reflexivity|].
  repeat split.
Qed.

(** ** refresh_every: rejected values (C2) *)

(** C2 as stated fails twice.  With [?refresh_every=] the value is present
    and not a number, and [init()] appends no invalid-input message: the empty
    string is falsy and [setupRefreshEvery] is not called.  And a numeral too
    large for a double, 1 followed by 309 zeros, parses to +Infinity, which
    passes both tests and is stored: the stored value is not an integer. *)
Lemma refresh_every_not_always_rejected_nor_integer :
  (let search := [(str "refresh_every", [])] in
   param_every search = Str []
   /\ isNaN (parseInt (param_every search)) = true
   /\ exists c st', init (page_load search 0 (fun _ => 0)) = Normal (c, st')
        /\ Invalid_refresh_every ∉ statusMessages c)
  /\ (let search := [(str "refresh_every", 49%N :: replicate 309 48%N)] in
      exists c st', init (page_load search 0 (fun _ => 0)) = Normal (c, st')
        /\ refreshEvery c = Some (Inf false)
        /\ forall n : Z, refreshEvery c <> Some (Fin n)).
Proof.
  split.
  - cbv zeta. split; [reflexivity|]. split; [reflexivity|].
    eexists _, _. split; [apply init_spec|].
    vm_compute. intros H. apply list_elem_of_singleton in H. discriminate H.
  - cbv zeta. eexists _, _. split; [apply init_spec|].
    assert (H : refreshEvery (config (self (after_init
                  (page_load [(str "refresh_every", 49%N :: replicate 309 48%N)] 0
                     (fun _ => 0))))) = Some (Inf false)) by (vm_compute; reflexivity).
    split; [exact H|]. intros n. rewrite H. discriminate.
Qed.

(** C2, amended.  [setupRefreshEvery] rejects every value that does not parse
    to a number or parses to a number <= 0: it arms no timer, stores nothing
    and appends the invalid-input message.  [init()] on a fresh page does so
    for every such value that is present and not empty; an empty value is
    treated like an absent one and gets no message.  Consequently
    [config.refreshEvery], whenever it is set, is a positive Number: a
    positive integer or +Infinity. *)
Theorem refresh_every_invalid_rejected
    (search : list (jsstring * jsstring)) (tza : Z) (clk : nat -> Z) :
  (forall (v : value) (st : state),
      isNaN (parseInt v) = true \/ lessOrEqual (parseInt v) (Fin 0) = true ->
      setupRefreshEvery v st = Normal (false, with_status Invalid_refresh_every st))
  /\ exists c st',
      init (page_load search tza clk) = Normal (c, st')
      /\ (ToBoolean (param_every search) = true ->
          isNaN (parseInt (param_every search)) = true
          \/ lessOrEqual (parseInt (param_every search)) (Fin 0) = true ->
          refreshEvery c = None
          /\ refreshEveryTimeout (self st') = None
          /\ head (statusMessages c) = Some Invalid_refresh_every
          /\ size (timers (win st')) = (if at_accepted (param_at search) then 1 else 0)%nat)
      /\ (ToBoolean (param_every search) = false ->
          refreshEvery c = None
          /\ refreshEveryTimeout (self st') = None
          /\ Invalid_refresh_every ∉ statusMessages c)
      /\ (forall x : number,
            refreshEvery c = Some x ->
            (exists n : Z, 0 < n /\ x = Fin n) \/ x = Inf false).
Proof.
  assert (Hrej : forall x, isNaN x = true \/ lessOrEqual x (Fin 0) = true ->
                           every_rejected x = true).
  { intros x [H|H]; unfold every_rejected; rewrite H; [reflexivity | apply orb_true_r]. }
  split.
  - intros v st H. rewrite setupRefreshEvery_spec, (Hrej _ H). reflexivity.
  - exists (config (self (after_init (page_load search tza clk)))),
      (after_init (page_load search tza clk)).
    split; [apply init_spec|].
    pose proof (every_outcome_after_init search tza clk) as He.
    pose proof (handles_after_init search tza clk) as Hh. cbv zeta in Hh.
    unfold every_outcome, every_expected in He.
    fold (every_accepted (param_every search)) in He.
    split; [|split].
    + intros Hv H. apply Hrej in H.
      unfold every_accepted in *. rewrite Hv, H in *. cbn [andb negb] in *.
      destruct Hh as (Hh1 & _ & Hsize).
      split; [exact (f_equal fst He)|]. split; [exact Hh1|].
      split; [|exact Hsize].
      rewrite messages_of_page_load. unfold every_messages. rewrite Hv, H. reflexivity.
    + intros Hv. unfold every_accepted in *. rewrite Hv in *. cbn [andb] in *.
      destruct Hh as (Hh1 & _ & _).
      split; [exact (f_equal fst He)|]. split; [exact Hh1|].
      rewrite messages_of_page_load. unfold every_messages, none_messages. rewrite Hv.
      cbn [app negb andb]. intros Hin. apply elem_of_app in Hin as [Hin|Hin].
      * destruct (param_at search) as [|[|ch s]]; cbn [at_messages] in Hin;
          try (apply not_elem_of_nil in Hin; exact Hin).
        apply list_elem_of_singleton in Hin.
        destruct (at_rejected (ch :: s)); discriminate Hin.
      * destruct (negb (ToBoolean (param_at search)));
          [apply list_elem_of_singleton in Hin; discriminate Hin
          | apply not_elem_of_nil in Hin; exact Hin].
    + intros x Hx. apply (f_equal fst) in He. cbn [fst] in He. rewrite Hx in He.
      unfold every_accepted in He.
      destruct (ToBoolean (param_every search)); [|discriminate He].
      destruct (every_rejected (parseInt (param_every search))) eqn:Hr; [discriminate He|].
      cbn [andb negb fst] in He. injection He as ->.
      apply every_accepted_positive, Hr.
Qed.

(** Scenario D ([?refresh_every=abc]), [?refresh_every=] and scenario A
    ([?refresh_every=30]). *)
Lemma refresh_every_invalid_rejected_witness :
  setupRefreshEvery (Str (str "-5")) (page_load [] 0 (fun _ => 0))
  = Normal (false, with_status Invalid_refresh_every (page_load [] 0 (fun _ => 0)))
  /\ (exists c st',
        init (page_load [(str "refresh_every", str "abc")] 0 (fun _ => 0)) = Normal (c, st')
        /\ refreshEvery c = None
        /\ refreshEveryTimeout (self st') = None
        /\ head (statusMessages c) = Some Invalid_refresh_every
        /\ size (timers (win st')) = 0%nat)
  /\ (exists c st',
        init (page_load [(str "refresh_every", [])] 0 (fun _ => 0)) = Normal (c, st')
        /\ refreshEvery c = None
        /\ refreshEveryTimeout (self st') = None
        /\ Invalid_refresh_every ∉ statusMessages c)
  /\ (exists c st',
        init (page_load [(str "refresh_every", str "30")] 0 (fun _ => 0)) = Normal (c, st')
        /\ refreshEvery c = Some (Fin 30)
        /\ ((exists n : Z, 0 < n /\ Fin 30 = Fin n) \/ Fin 30 = Inf false)).
Proof.
  split; [|split; [|split]].
  - apply (refresh_every_invalid_rejected [] 0 (fun _ => 0)). right. reflexivity.
  - destruct (refresh_every_invalid_rejected [(str "refresh_every", str "abc")] 0 (fun _ => 0))
      as (_ & c & st' & Hinit & Hrej & _).
    exists c, st'. split; [exact Hinit|].
    apply Hrej; [reflexivity | left; reflexivity].
  - destruct (refresh_every_invalid_rejected [(str "refresh_every", [])] 0 (fun _ => 0))
      as (_ & c & st' & Hinit & _ & Hempty & _).
    exists c, st'. split; [exact Hinit|].
    apply Hempty. reflexivity.
  - destruct (refresh_every_invalid_rejected [(str "refresh_every", str "30")] 0 (fun _ => 0))
      as (_ & c & st' & Hinit & _ & _ & Hpos).
    exists c, st'. split; [exact Hinit|].
    assert (H : refreshEvery c = Some (Fin 30)).
    { rewrite init_spec in Hinit. injection Hinit as <- <-. reflexivity. }
    split; [exact H | apply Hpos, H].
Defined.

(** ** init: the message for a page without parameters (C3) *)

(** C3 as stated fails: with [?refresh_every=] the parameter is present (its
    value is the empty string, not [null]) and [init()] still appends the
    no-auto-refresh message. *)
Lemma none_message_with_parameter_present :
  let st := page_load [(str "refresh_every", [])] 0 (fun _ => 0) in
  query_every st = Str []
  /\ query_every st <> Null
  /\ exists c st', init st = Normal (c, st')
       /\ statusMessages c = [No_refresh_parameters].
Proof.
  cbv zeta. split; [reflexivity|]. split; [discriminate|].
  eexists _, _. split; [apply init_spec | reflexivity].
Qed.

(** C3, amended. On a freshly loaded page [init()] appends the
    no-auto-refresh message exactly when neither parameter has a non-empty
    value (each is absent or empty); it is then the only status message, both
    configuration values stay null and no timer is pending. *)
Theorem none_message_iff_no_truthy_parameter
    (search : list (jsstring * jsstring)) (tza : Z) (clk : nat -> Z) :
  let st := page_load search tza clk in
  exists c st', init st = Normal (c, st')
    /\ if negb (ToBoolean (query_every st)) && negb (ToBoolean (query_at st))
       then statusMessages c = [No_refresh_parameters]
            /\ refreshEvery c = None
            /\ refreshAt c = None
            /\ refreshEveryTimeout (self st') = None
            /\ refreshAtTimeout (self st') = None
            /\ timers (win st') = ∅
       else No_refresh_parameters ∉ statusMessages c.
Proof.
  intros st. exists (config (self (after_init st))), (after_init st).
  split; [apply init_spec|].
  destruct (negb (ToBoolean (query_every st)) && negb (ToBoolean (query_at st))) eqn:Hnone.
  - apply andb_prop in Hnone as [He Ha].
    unfold after_init, after_none, after_every.
    destruct (ToBoolean (query_every st)); [discriminate|].
    destruct (query_at st) as [|[|c s]]; [| |discriminate]; repeat split.
  - rewrite messages_after_init. unfold none_messages. rewrite Hnone.
    change (messages st) with (@nil string).
    rewrite app_nil_l, app_nil_r. intros H. apply elem_of_app in H as [H|H].
    + exact (none_not_in_every_messages _ H).
    + exact (none_not_in_at_messages _ H).
Qed.

(** ** refresh_at: the target time (C4) *)



(** ** refresh_every: accepted values (C5) *)

(** C5 as stated fails for large N: 9007199254740993 (2^53 + 1) is not a
    Number; [parseInt] gives 9007199254740992, and that is what is stored,
    printed in the message and multiplied by 1000. *)
Lemma refresh_every_large_not_stored :
  let N := 9007199254740993 in
  let st := page_load [] 0 (fun _ => 0) in
  exists st', setupRefreshEvery (Str (numeral N)) st = Normal (true, st')
    /\ numeral N = str "9007199254740993"
    /\ refreshEvery (config (self st')) = Some (Fin 9007199254740992)
    /\ refreshEvery (config (self st')) <> Some (Fin N)
    /\ messages st'
       = ["Auto-refresh enabled: Page will refresh every 9007199254740992 seconds"%string]
    /\ timers (win st') !! 1%positive
       = Some {| handler := reload; timeout := Fin 9007199254740992000 |}
    /\ 9007199254740992000 <> N * 1000.
Proof.
  cbv zeta. eexists. split; [rewrite setupRefreshEvery_spec; vm_compute; reflexivity|].
  vm_compute. repeat split; discriminate.
Qed.

(** C5, amended.  For every positive integer N, [setupRefreshEvery] on the
    numeral of N accepts, and what it stores, prints and multiplies by 1000 is
    the Number value of N, N rounded to the nearest double.  When N * 1000 is
    below 2^53 these are exact: it stores N, appends the confirmation that
    prints N, and arms a timer that reloads the page with N * 1000 as its
    timeout; so does [init()] on a fresh page whose [refresh_every] is that
    numeral. *)
Theorem refresh_every_accepted (N : Z) :
  0 < N ->
  let confirmation :=
    ("Auto-refresh enabled: Page will refresh every " +:+ decimal N +:+ " seconds")%string in
  let armed := {| handler := reload; timeout := Fin (N * 1000) |} in
  (forall st : state,
      setupRefreshEvery (Str (numeral N)) st
      = Normal (true, armed_every (round_to_double N) st))
  /\ (N * 1000 < 2 ^ 53 ->
      (forall st : state,
          exists st', setupRefreshEvery (Str (numeral N)) st = Normal (true, st')
            /\ refreshEvery (config (self st')) = Some (Fin N)
            /\ refreshEveryTimeout (self st') = Some (next_handle (win st))
            /\ timers (win st') = <[next_handle (win st) := armed]> (timers (win st))
            /\ messages st' = messages st ++ [confirmation])
      /\ (forall (search : list (jsstring * jsstring)) (tza : Z) (clk : nat -> Z),
            param_every search = Str (numeral N) ->
            exists c st', init (page_load search tza clk) = Normal (c, st')
              /\ refreshEvery c = Some (Fin N)
              /\ pending st' (refreshEveryTimeout (self st')) = Some armed
              /\ head (statusMessages c) = Some confirmation)).
Proof.
  intros Hpos confirmation armed.
  split.
  { intros st. rewrite setupRefreshEvery_spec, parseInt_numeral by exact Hpos.
    rewrite (positive_accepted _ (round_to_double_positive N Hpos)). reflexivity. }
  intros Hsmall.
  assert (Hparse : parseInt (Str (numeral N)) = Fin N).
  { rewrite parseInt_numeral by exact Hpos. apply round_to_double_exact. lia. }
  assert (Hacc : every_rejected (Fin N) = false).
  { apply positive_accepted. left. exists N. split; [exact Hpos | reflexivity]. }
  assert (Hmul : multiply (Fin N) (Fin 1000) = Fin (N * 1000)).
  { apply multiply_exact; lia. }
  assert (Hmsg : Enabled_every (Fin N) = confirmation).
  { unfold Enabled_every, confirmation. rewrite toString_small by lia. reflexivity. }
  assert (Htruthy : ToBoolean (Str (numeral N)) = true).
  { unfold numeral, decimal_digits.
    destruct (digits_aux_cons (Z.to_nat (Z.log2 N)) N []) as (d & ds & ->). reflexivity. }
  split.
  - intros st. exists (armed_every (Fin N) st).
    rewrite setupRefreshEvery_spec, Hparse, Hacc.
    split; [reflexivity|]. split; [reflexivity|]. split; [reflexivity|].
    unfold armed_every. cbn [win self config statusMessages with_timer timers].
    rewrite Hmul, Hmsg. split; reflexivity.
  - intros search tza clk Hv.
    exists (config (self (after_init (page_load search tza clk)))),
      (after_init (page_load search tza clk)).
    split; [apply init_spec|].
    pose proof (every_outcome_after_init search tza clk) as He.
    unfold every_outcome, every_expected in He.
    rewrite Hv, Htruthy, Hparse, Hacc, Hmul in He. cbn [andb negb] in He.
    split; [exact (f_equal fst He)|]. split; [exact (f_equal snd He)|].
    rewrite messages_of_page_load. unfold every_messages.
    rewrite Hv, Htruthy, Hparse, Hacc, Hmsg. reflexivity.
Qed.

(** Scenario A: [?refresh_every=30]. *)
Lemma refresh_every_accepted_witness :
  numeral 30 = str "30"
  /\ exists c st',
      init (page_load [(str "refresh_every", str "30")] 0 (fun _ => 0)) = Normal (c, st')
      /\ refreshEvery c = Some (Fin 30)
      /\ pending st' (refreshEveryTimeout (self st'))
         = Some {| handler := reload; timeout := Fin 30000 |}
      /\ head (statusMessages c)
         = Some "Auto-refresh enabled: Page will refresh every 30 seconds"%string.
Proof.
  split; [reflexivity|].
  apply (refresh_every_accepted 30 ltac:(lia)); [lia | reflexivity].
Defined.

(** ** init: no exception (C6) *)

(** C6. Whatever the query string, the clock and the state, [init()] returns
    normally with the configuration object, and so do both setup methods on
    any string ([setupRefreshEvery] also on [null]).  A rejected directive
    changes the state by its status message only: [with_status] touches no
    other field, and no timer is added. *)
Theorem init_never_throws (st : state) :
  (exists st', init st = Normal (config (self st'), st'))
  /\ (forall v : value,
        setupRefreshEvery v st = Normal (true, armed_every (parseInt v) st)
        \/ setupRefreshEvery v st = Normal (false, with_status Invalid_refresh_every st))
  /\ (forall s : jsstring,
        setupRefreshAt (Str s) st = Normal (true, armed_at (at_hours s) (at_minutes s) st)
        \/ setupRefreshAt (Str s) st = Normal (false, with_status Invalid_refresh_at st))
  /\ (forall msg : string,
        win (with_status msg st) = win st
        /\ refreshEveryTimeout (self (with_status msg st)) = refreshEveryTimeout (self st)
        /\ refreshAtTimeout (self (with_status msg st)) = refreshAtTimeout (self st)
        /\ refreshEvery (config (self (with_status msg st))) = refreshEvery (config (self st))
        /\ refreshAt (config (self (with_status msg st))) = refreshAt (config (self st))
        /\ messages (with_status msg st) = messages st ++ [msg]).
Proof.
  split; [|split; [|split]].
  - exists (after_init st). apply init_spec.
  - intros v. rewrite setupRefreshEvery_spec.
    destruct (every_rejected (parseInt v)); [right | left]; reflexivity.
  - intros s. rewrite setupRefreshAt_spec.
    destruct (at_rejected s); [right | left]; reflexivity.
  - intros msg. repeat split.
Qed.

(** ** init: the two directives do not interfere (C7) *)

(** C7. Two loads of the page with the same [refresh_every] value end with
    the same stored value, the same pending timer and the same status message
    for [refresh_every], whatever their [refresh_at] values; two loads with the
    same [refresh_at] value (in the same time zone, reading the same clock)
    end with the same [refresh_at] entry, pending timer and message, whatever
    their [refresh_every] values; and when both directives are accepted, two
    timers with different handles are pending, each with its own delay. *)
Theorem directives_independent
    (search1 search2 : list (jsstring * jsstring)) (tza : Z) (clk : nat -> Z) :
  exists c1 s1 c2 s2,
    init (page_load search1 tza clk) = Normal (c1, s1)
    /\ init (page_load search2 tza clk) = Normal (c2, s2)
    /\ (param_every search1 = param_every search2 ->
        every_outcome s1 = every_outcome s2
        /\ every_message search1 c1 = every_message search2 c2)
    /\ (param_at search1 = param_at search2 ->
        at_outcome s1 = at_outcome s2
        /\ at_message search1 c1 = at_message search2 c2)
    /\ (every_accepted (param_every search1) = true ->
        at_accepted (param_at search1) = true ->
        exists h1 h2 : positive,
          refreshEveryTimeout (self s1) = Some h1
          /\ refreshAtTimeout (self s1) = Some h2
          /\ h1 <> h2
          /\ size (timers (win s1)) = 2%nat
          /\ timers (win s1) !! h1 =
             Some {| handler := reload;
                     timeout := multiply (parseInt (param_every search1)) (Fin 1000) |}
          /\ timers (win s1) !! h2 = snd (at_expected (param_at search1) tza clk)
          /\ is_Some (timers (win s1) !! h2)).
Proof.
  exists (config (self (after_init (page_load search1 tza clk)))),
    (after_init (page_load search1 tza clk)),
    (config (self (after_init (page_load search2 tza clk)))),
    (after_init (page_load search2 tza clk)).
  split; [apply init_spec|]. split; [apply init_spec|].
  split; [|split].
  - intros Heq. split.
    + rewrite !every_outcome_after_init, Heq. reflexivity.
    + rewrite !every_message_after_init, Heq. reflexivity.
  - intros Heq. split.
    + rewrite !at_outcome_after_init, Heq. reflexivity.
    + rewrite !at_message_after_init, Heq. reflexivity.
  - intros Hevery Hat.
    pose proof (handles_after_init search1 tza clk) as Hh.
    pose proof (every_outcome_after_init search1 tza clk) as He.
    pose proof (at_outcome_after_init search1 tza clk) as Ha.
    cbv zeta in Hh. rewrite Hevery, Hat in Hh.
    destruct Hh as (Hh1 & Hh2 & Hsize).
    unfold every_outcome in He. unfold at_outcome in Ha.
    rewrite Hh1 in He. rewrite Hh2 in Ha.
    apply (f_equal snd) in He. apply (f_equal snd) in Ha.
    cbn [snd pending mbind option_bind] in He, Ha.
    unfold every_expected in He. fold (every_accepted (param_every search1)) in He.
    rewrite Hevery in He. cbn [snd] in He.
    exists 1%positive, 2%positive.
    split; [exact Hh1|]. split; [exact Hh2|]. split; [discriminate|].
    split; [exact Hsize|]. split; [exact He|]. split; [exact Ha|].
    rewrite Ha. unfold at_accepted in Hat. unfold at_expected.
    destruct (param_at search1) as [|[|c s]]; try discriminate Hat.
    destruct (at_rejected (c :: s)); [discriminate Hat|]. eexists; reflexivity.
Qed.

(** Scenario F ([?refresh_every=60&refresh_at=1500], at 10:00) next to the
    same page with [refresh_at=0900] and with [refresh_every=30]. *)
Lemma directives_independent_witness :
  let clk : nat -> Z := fun _ => 1793700000000 in
  let both := [(str "refresh_every", str "60"); (str "refresh_at", str "1500")] in
  let other_at := [(str "refresh_every", str "60"); (str "refresh_at", str "0900")] in
  let other_every := [(str "refresh_every", str "30"); (str "refresh_at", str "1500")] in
  exists c1 s1 c2 s2 c3 s3,
    init (page_load both 0 clk) = Normal (c1, s1)
    /\ init (page_load other_at 0 clk) = Normal (c2, s2)
    /\ init (page_load other_every 0 clk) = Normal (c3, s3)
    /\ every_outcome s1 = every_outcome s2
    /\ every_message both c1 = every_message other_at c2
    /\ at_outcome s1 = at_outcome s3
    /\ at_message both c1 = at_message other_every c3
    /\ size (timers (win s1)) = 2%nat.
Proof.
  intros clk both other_at other_every.
  destruct (directives_independent both other_at 0 clk)
    as (c1 & s1 & c2 & s2 & H1 & H2 & Hevery & _ & Hboth).
  destruct (directives_independent both other_every 0 clk)
    as (c1' & s1' & c3 & s3 & H1' & H3 & _ & Hat & _).
  rewrite H1 in H1'. injection H1' as <- <-.
  exists c1, s1, c2, s2, c3, s3.
  destruct (Hevery eq_refl) as [He1 He2].
  destruct (Hat eq_refl) as [Ha1 Ha2].
  destruct (Hboth eq_refl eq_refl) as (h1 & h2 & _ & _ & _ & Hsize & _).
  repeat split; assumption.
Defined.

(** ** cancel (C8, C9) *)

(** C8. [cancel()] is idempotent: it always returns; calling it twice in a
    row leaves the state a single call leaves, with both handles cleared;
    and with no timer armed it changes nothing. *)
Theorem cancel_idempotent (st : state) :
  (cancel;; cancel) st = cancel st
  /\ (exists st1, cancel st = Normal (tt, st1)
        /\ refreshEveryTimeout (self st1) = None
        /\ refreshAtTimeout (self st1) = None)
  /\ (forall w c, cancel (unarmed w c) = Normal (tt, unarmed w c)).
Proof.
  split; [|split].
  - cbv beta iota delta [mbind JS_bind].
    rewrite cancel_spec.
    destruct st as [w [[h1|] [h2|] c]]; reflexivity.
  - exists (cancel_at (cancel_every st)).
    split; [apply cancel_spec|].
    destruct st as [w [[h1|] [h2|] c]]; split; reflexivity.
  - intros w c. reflexivity.
Qed.

(** C9. [cancel()] leaves [config] (the status messages and the two stored
    values) as it was; in the window it only removes the pending timers of
    the two handles. *)
Theorem cancel_keeps_config (st : state) :
  exists st', cancel st = Normal (tt, st')
    /\ config (self st') = config (self st)
    /\ statusMessages (config (self st')) = statusMessages (config (self st))
    /\ refreshEvery (config (self st')) = refreshEvery (config (self st))
    /\ refreshAt (config (self st')) = refreshAt (config (self st))
    /\ location_search (win st') = location_search (win st)
    /\ next_handle (win st') = next_handle (win st)
    /\ reads (win st') = reads (win st)
    /\ timers (win st') =
       cleared (refreshAtTimeout (self st))
         (cleared (refreshEveryTimeout (self st)) (timers (win st))).
Proof.
  exists (cancel_at (cancel_every st)).
  split; [apply cancel_spec|].
  destruct st as [w [[h1|] [h2|] c]]; repeat split.
Qed.

(** ** init: order of the messages (C10) *)

(** C10. [init()] always appends at least one status message, and the
    messages appear in the order of the steps: what [setupRefreshEvery]
    appends, then what [setupRefreshAt] appends, then the no-auto-refresh
    message. *)
Theorem init_messages_nonempty_ordered (st : state) :
  exists (c : Config) (st' : state) (ms_every ms_at ms_none : list string),
    init st = Normal (c, st')
    /\ statusMessages c = messages st ++ ms_every ++ ms_at ++ ms_none
    /\ ms_every ++ ms_at ++ ms_none <> []
    /\ statusMessages c <> []
    /\ (if ToBoolean (query_every st)
        then forall st0, produces (setupRefreshEvery (query_every st)) st0 ms_every
        else ms_every = [])
    /\ (if ToBoolean (query_at st)
        then forall st0, produces (setupRefreshAt (query_at st)) st0 ms_at
        else ms_at = [])
    /\ ms_none = (if negb (ToBoolean (query_every st)) && negb (ToBoolean (query_at st))
                  then [No_refresh_parameters] else []).
Proof.
  exists (config (self (after_init st))), (after_init st),
    (every_messages (query_every st)), (at_messages (query_at st)),
    (none_messages (query_every st) (query_at st)).
  split; [apply init_spec|].
  split; [apply messages_after_init|].
  split; [apply init_appends_some_message|].
  split.
  { rewrite messages_after_init. intros H. apply app_eq_nil in H as [_ H].
    exact (init_appends_some_message _ _ H). }
  split; [|split; [|reflexivity]].
  - destruct (ToBoolean (query_every st)) eqn:Hv.
    + intros st0. apply setupRefreshEvery_produces, Hv.
    + unfold every_messages. rewrite Hv. reflexivity.
  - destruct (ToBoolean (query_at st)) eqn:Hv.
    + intros st0. apply setupRefreshAt_produces, Hv.
    + destruct (query_at st) as [|[|c s]]; [reflexivity.. | discriminate].
Qed.

(** * Further properties *)

(** ** getQueryParam *)

Lemma URLSearchParams_get_null (l : list (jsstring * jsstring)) (name : jsstring) :
  URLSearchParams_get l name = Null <-> name ∉ map fst l.
Proof.
  induction l as [|[n v] l IH]; cbn [URLSearchParams_get map fst].
  - split; [intros _; apply not_elem_of_nil | reflexivity].
  - destruct (decide (n = name)) as [->|Hne].
    + split; [discriminate|]. intros H. exfalso. apply H. left.
    + rewrite IH. rewrite not_elem_of_cons. intuition congruence.
Qed.

Lemma URLSearchParams_get_first (before after : list (jsstring * jsstring))
    (name value : jsstring) :
  name ∉ map fst before ->
  URLSearchParams_get (before ++ (name, value) :: after) name = Str value.
Proof.
  induction before as [|[n v] before IH]; cbn [URLSearchParams_get map fst app]; intros Hb.
  - destruct (decide (name = name)); [reflexivity | contradiction].
  - apply not_elem_of_cons in Hb as [Hne Hb].
    destruct (decide (n = name)); [congruence | apply IH, Hb].
Qed.

(** X1. [getQueryParam] changes nothing; it returns [null] exactly when no
    pair of the query string has the name, and otherwise the value of the
    first pair that has it, whatever follows (a repeated parameter counts
    once, with its first value). *)
Theorem getQueryParam_first_value (name : jsstring) (st : state) :
  exists v : value,
    getQueryParam name st = Normal (v, st)
    /\ (v = Null <-> name ∉ map fst (location_search (win st)))
    /\ (forall (before after : list (jsstring * jsstring)) (value : jsstring),
          location_search (win st) = before ++ (name, value) :: after ->
          name ∉ map fst before ->
          v = Str value).
Proof.
  exists (URLSearchParams_get (location_search (win st)) name).
  split; [reflexivity|]. split; [apply URLSearchParams_get_null|].
  intros before after value -> Hb. apply URLSearchParams_get_first, Hb.
Qed.

(** [?x=1&refresh_every=abc&refresh_every=30]: the first value, [abc]. *)
Lemma getQueryParam_first_value_witness :
  let st := page_load [(str "x", str "1"); (str "refresh_every", str "abc");
                       (str "refresh_every", str "30")] 0 (fun _ => 0) in
  exists v : value,
    getQueryParam (str "refresh_every") st = Normal (v, st)
    /\ v = Str (str "abc")
    /\ getQueryParam (str "refresh_at") st = Normal (Null, st).
Proof.
  intros st.
  destruct (getQueryParam_first_value (str "refresh_every") st) as (v & Hrun & _ & Hfirst).
  destruct (getQueryParam_first_value (str "refresh_at") st) as (v' & Hrun' & Hnull & _).
  exists v. split; [exact Hrun|]. split.
  - apply (Hfirst [(str "x", str "1")] [(str "refresh_every", str "30")] (str "abc"));
      [reflexivity|].
    cbn [map fst]. intros H. apply list_elem_of_singleton in H. discriminate H.
  - assert (Hv : v' = Null).
    { apply Hnull. vm_compute. intros H.
      repeat (apply elem_of_cons in H as [H|H]; [discriminate H|]).
      apply not_elem_of_nil in H. exact H. }
    rewrite Hv in Hrun'. exact Hrun'.
Defined.

(** ** parseInt: what it skips and where it stops *)

Lemma trim_start_white_space (ws rest : jsstring) :
  all_white_space ws -> trim_start (ws ++ rest) = trim_start rest.
Proof.
  induction 1 as [|c ws Hc _ IH]; [reflexivity|].
  cbn [app trim_start]. rewrite Hc. exact IH.
Qed.

Lemma radix_digits_stop (ds : list Z) (rest : jsstring) :
  Forall is_digit ds -> no_digit_next rest ->
  radix_digits 10 (map digit_code ds ++ rest) = ds.
Proof.
  intros Hds Hrest. induction Hds as [|d ds Hd _ IH].
  - destruct rest as [|c rest]; [reflexivity|].
    cbn [map app radix_digits]. cbn [no_digit_next] in Hrest.
    unfold digit_value, is_digit_code in *.
    destruct (N.leb_spec 48 c); destruct (N.leb_spec c 57); cbn [andb]; try lia.
    + destruct (N.leb_spec 97 c); destruct (N.leb_spec c 122); cbn [andb];
        try (destruct (Z.ltb_spec (Z.of_N c - 87) 10); [lia | reflexivity]).
      all: destruct (N.leb_spec 65 c); destruct (N.leb_spec c 90); cbn [andb];
        try reflexivity;
        destruct (Z.ltb_spec (Z.of_N c - 55) 10); [lia | reflexivity].
    + destruct (N.leb_spec 97 c); destruct (N.leb_spec c 122); cbn [andb]; try lia.
      destruct (N.leb_spec 65 c); destruct (N.leb_spec c 90); cbn [andb]; try lia;
        reflexivity.
  - cbn [map app radix_digits]. rewrite (digit_value_code d Hd).
    destruct (Z.ltb_spec d 10); [|unfold is_digit in Hd; lia].
    rewrite IH. reflexivity.
Qed.

(** The leading digit of the numeral of a positive integer is not 0. *)
Lemma digits_aux_head (fuel : nat) (z : Z) (acc : list Z) :
  0 < z -> exists d ds, digits_aux fuel z acc = d :: ds /\ 0 < d.
Proof.
  revert z acc. induction fuel as [|fuel IH]; intros z acc Hz; cbn [digits_aux].
  - eauto.
  - destruct (Z.ltb_spec z 10); [eauto|].
    apply IH. apply Z.div_str_pos. lia.
Qed.

(** [parseInt] of white space, a sign, decimal digits and anything that does
    not go on with a digit, when the digits do not start a [0x] prefix. *)
Lemma parseInt_parts (ws sign rest : jsstring) (ds : list Z) :
  all_white_space ws ->
  sign = [] \/ sign = [43%N] \/ sign = [45%N] ->
  ds <> [] -> Forall is_digit ds -> no_digit_next rest ->
  strip_hex_prefix (map digit_code ds ++ rest) = None ->
  parseInt (Str (ws ++ sign ++ map digit_code ds ++ rest)) =
  let negative := bool_decide (sign = [45%N]) in
  if radix_value 10 ds =? 0 then signed_zero negative
  else round_to_double (if negative then - radix_value 10 ds else radix_value 10 ds).
Proof.
  intros Hws Hsign Hne Hds Hrest Hhex.
  pose proof (radix_digits_stop ds rest Hds Hrest) as Hr.
  assert (HD : exists tl, map digit_code ds ++ rest = digit_code (hd 0 ds) :: tl
                          /\ is_digit_code (digit_code (hd 0 ds))).
  { destruct Hds as [|d0 ds Hd0 _]; [congruence|].
    eexists. split; [reflexivity | apply digit_code_range, Hd0]. }
  destruct HD as (tl & HD & Hc0).
  set (D := map digit_code ds ++ rest) in *. clearbody D. subst D.
  set (c0 := digit_code (hd 0 ds)) in *. clearbody c0.
  pose proof (digit_not_white_space _ Hc0) as Hnw.
  unfold is_digit_code in Hc0.
  assert (Hm : has_minus (c0 :: tl) = false).
  { cbn [has_minus]. decide_N_tests; try reflexivity. }
  assert (Hs : strip_sign (c0 :: tl) = c0 :: tl).
  { cbn [strip_sign]. decide_N_tests; try reflexivity. }
  assert (Ht : trim_start (c0 :: tl) = c0 :: tl).
  { cbn [trim_start]. rewrite Hnw. reflexivity. }
  unfold parseInt. cbn [ToString]. rewrite trim_start_white_space by exact Hws.
  destruct Hsign as [->|[->| ->]].
  - cbn [app]. rewrite Ht, Hm, Hs, Hhex, Hr.
    destruct ds; [congruence | reflexivity].
  - cbn [app].
    change (trim_start (43%N :: c0 :: tl)) with (43%N :: c0 :: tl).
    change (has_minus (43%N :: c0 :: tl)) with false.
    change (strip_sign (43%N :: c0 :: tl)) with (c0 :: tl).
    rewrite Hhex, Hr. destruct ds; [congruence | reflexivity].
  - cbn [app].
    change (trim_start (45%N :: c0 :: tl)) with (45%N :: c0 :: tl).
    change (has_minus (45%N :: c0 :: tl)) with true.
    change (strip_sign (45%N :: c0 :: tl)) with (c0 :: tl).
    rewrite Hhex, Hr. destruct ds; [congruence | reflexivity].
Qed.

Lemma no_hex_after_nonzero (d0 : Z) (ds : list Z) (rest : jsstring) :
  is_digit d0 -> 0 < d0 -> strip_hex_prefix (map digit_code (d0 :: ds) ++ rest) = None.
Proof.
  intros Hd Hpos. cbn [map app strip_hex_prefix].
  destruct (map digit_code ds ++ rest) as [|c1 l]; [reflexivity|].
  unfold is_digit, digit_code in *.
  destruct (N.eqb_spec (Z.to_N (48 + d0)) 48); [lia | reflexivity].
Qed.

Lemma no_hex_in_digits (ds : list Z) :
  Forall is_digit ds -> strip_hex_prefix (map digit_code ds ++ []) = None.
Proof.
  intros Hds. rewrite app_nil_r.
  destruct Hds as [|d0 ds Hd0 Hds]; [reflexivity|].
  destruct Hds as [|d1 ds Hd1 Hds]; [reflexivity|].
  cbn [map strip_hex_prefix].
  pose proof (digit_code_range d1 Hd1) as Hc1. unfold is_digit_code in Hc1.
  destruct (N.eqb_spec (digit_code d1) 120); [lia|].
  destruct (N.eqb_spec (digit_code d1) 88); [lia|].
  cbn [orb]. rewrite andb_false_r. reflexivity.
Qed.

(** White space before and a non-digit after the numeral of a positive
    integer do not change what [parseInt] reads. *)
Lemma parseInt_numeral_padded (ws rest : jsstring) (N : Z) :
  all_white_space ws -> no_digit_next rest -> 0 < N ->
  parseInt (Str (ws ++ numeral N ++ rest)) = round_to_double N.
Proof.
  intros Hws Hrest HN.
  pose proof (decimal_digits_digits N ltac:(lia)) as Hds.
  pose proof (radix_value_decimal_digits N) as Hv.
  unfold numeral, decimal_digits in *.
  destruct (digits_aux_head (Z.to_nat (Z.log2 N)) N [] HN) as (d0 & ds & Heq & Hd0).
  rewrite Heq in *.
  pose proof (Forall_inv Hds) as Hdig.
  pose proof (parseInt_parts ws [] rest (d0 :: ds)) as H. cbn [app] in H.
  rewrite H; try assumption.
  - cbv zeta. rewrite Hv. change (bool_decide ([] = [45%N])) with false.
    destruct (Z.eqb_spec N 0); [lia | reflexivity].
  - left. reflexivity.
  - discriminate.
  - apply no_hex_after_nonzero; assumption.
Qed.

(** The numeral of a non-negative integer after a minus sign reads as the
    negated integer, -0 for zero. *)
Lemma parseInt_minus_numeral (N : Z) :
  0 <= N ->
  parseInt (Str (45%N :: numeral N)) = if N =? 0 then NegZero else round_to_double (- N).
Proof.
  intros HN.
  pose proof (decimal_digits_digits N HN) as Hds.
  pose proof (radix_value_decimal_digits N) as Hv.
  assert (Hne : decimal_digits N <> []).
  { unfold decimal_digits.
    destruct (digits_aux_cons (Z.to_nat (Z.log2 N)) N []) as (d & ds & ->). discriminate. }
  pose proof (parseInt_parts [] [45%N] [] (decimal_digits N)) as H.
  cbn [app] in H. rewrite app_nil_r in H. unfold numeral. rewrite H.
  - cbv zeta. rewrite Hv.
    replace (bool_decide ([45%N] = [45%N])) with true
      by (symmetry; apply bool_decide_eq_true; reflexivity).
    reflexivity.
  - constructor.
  - right. right. reflexivity.
  - exact Hne.
  - exact Hds.
  - exact I.
  - rewrite <- (app_nil_r (map digit_code (decimal_digits N))).
    apply no_hex_in_digits, Hds.
Qed.

(** ** refresh_every: what the value may carry besides the number *)

(** X2. [setupRefreshEvery] reads the number the way [parseInt] does: white
    space before the numeral of a positive integer and anything after it that
    does not start with a digit ([30s], [30.5], [ 30]) are ignored, and the
    value is accepted exactly as the bare numeral is. *)
Theorem refresh_every_ignores_padding (ws rest : jsstring) (N : Z) (st : state) :
  all_white_space ws -> no_digit_next rest -> 0 < N ->
  setupRefreshEvery (Str (ws ++ numeral N ++ rest)) st
  = Normal (true, armed_every (round_to_double N) st)
  /\ setupRefreshEvery (Str (ws ++ numeral N ++ rest)) st
     = setupRefreshEvery (Str (numeral N)) st.
Proof.
  intros Hws Hrest HN.
  assert (H : forall v, parseInt v = round_to_double N ->
                        setupRefreshEvery v st
                        = Normal (true, armed_every (round_to_double N) st)).
  { intros v Hv. rewrite setupRefreshEvery_spec, Hv.
    rewrite (positive_accepted _ (round_to_double_positive N HN)). reflexivity. }
  rewrite (H _ (parseInt_numeral_padded ws rest N Hws Hrest HN)).
  rewrite (H _ (parseInt_numeral N HN)). split; reflexivity.
Qed.

(** [ 30.5] is taken as 30 seconds. *)
Lemma refresh_every_ignores_padding_witness :
  setupRefreshEvery (Str (str " 30.5")) (page_load [] 0 (fun _ => 0))
  = Normal (true, armed_every (Fin 30) (page_load [] 0 (fun _ => 0))).
Proof.
  apply (refresh_every_ignores_padding [32%N] (str ".5") 30 (page_load [] 0 (fun _ => 0))).
  - repeat constructor.
  - cbn. unfold is_digit_code. lia.
  - lia.
Defined.

(** X3. [setupRefreshEvery] rejects the numeral of zero and every numeral
    with a minus sign in front ([0], [-0], [-5]): no timer, nothing stored,
    the invalid-input message. *)
Theorem refresh_every_rejects_zero_and_negative (N : Z) (st : state) :
  0 <= N ->
  setupRefreshEvery (Str (45%N :: numeral N)) st
  = Normal (false, with_status Invalid_refresh_every st)
  /\ setupRefreshEvery (Str (numeral 0)) st
     = Normal (false, with_status Invalid_refresh_every st).
Proof.
  intros HN. split; [|reflexivity].
  rewrite setupRefreshEvery_spec, parseInt_minus_numeral by exact HN.
  destruct (Z.eqb_spec N 0) as [->|Hnz]; [reflexivity|].
  assert (Hrej : every_rejected (round_to_double (- N)) = true).
  { unfold round_to_double.
    destruct (Z.eqb_spec (- N) 0); [lia|].
    pose proof (round_magnitude_positive (Z.abs (- N)) ltac:(lia)) as Hm.
    destruct (two1024 <=? round_magnitude (Z.abs (- N))).
    - destruct (Z.ltb_spec (- N) 0); [reflexivity | lia].
    - unfold every_rejected, lessOrEqual. cbn [isNaN lessThan value_of orb].
      replace (Z.sgn (- N)) with (-1) by lia.
      destruct (Z.ltb_spec (-1 * round_magnitude (Z.abs (- N))) 0); [reflexivity | lia]. }
  rewrite Hrej. reflexivity.
Qed.

Lemma refresh_every_rejects_zero_and_negative_witness :
  setupRefreshEvery (Str (str "-5")) (page_load [] 0 (fun _ => 0))
  = Normal (false, with_status Invalid_refresh_every (page_load [] 0 (fun _ => 0))).
Proof.
  apply (refresh_every_rejects_zero_and_negative 5 (page_load [] 0 (fun _ => 0))). lia.
Defined.

(** ** refresh_at: four digits *)

Lemma parseInt_two_digits (d1 d2 : Z) :
  is_digit d1 -> is_digit d2 ->
  parseInt (Str [digit_code d1; digit_code d2]) = Fin (10 * d1 + d2).
Proof.
  intros H1 H2.
  assert (Hds : Forall is_digit [d1; d2]).
  { constructor; [assumption|]. constructor; [assumption | constructor]. }
  pose proof (parseInt_digits [d1; d2] ltac:(discriminate) Hds) as H. cbn [map] in H.
  rewrite H.
  unfold radix_value. cbn [fold_left]. unfold is_digit in *.
  destruct (Z.eqb_spec ((0 * 10 + d1) * 10 + d2) 0) as [Hz|Hnz].
  - f_equal. lia.
  - rewrite round_to_double_exact by (pose proof two53_value; lia). f_equal. lia.
Qed.

Lemma digit_cases (d : Z) :
  is_digit d ->
  d = 0 \/ d = 1 \/ d = 2 \/ d = 3 \/ d = 4 \/ d = 5 \/ d = 6 \/ d = 7 \/ d = 8 \/ d = 9.
Proof. unfold is_digit. lia. Qed.

Lemma padStart_two_digits (d1 d2 : Z) :
  is_digit d1 -> is_digit d2 ->
  padStart (toString (Fin (10 * d1 + d2))) 2 "0" = two_digits d1 d2.
Proof.
  intros H1 H2.
  destruct (digit_cases d1 H1) as [->|[->|[->|[->|[->|[->|[->|[->|[->| ->]]]]]]]]];
    destruct (digit_cases d2 H2) as [->|[->|[->|[->|[->|[->|[->|[->|[->| ->]]]]]]]]];
    vm_compute; reflexivity.
Qed.

(** X4. A [refresh_at] value of four decimal digits is accepted exactly when
    the first two make an hour of at most 23 and the last two a minute of at
    most 59; the hour and the minute stored are those numbers, and the
    confirmation shows the four digits again, as hh:mm:00. *)
Theorem refresh_at_four_digits (d1 d2 d3 d4 : Z) (st : state) :
  is_digit d1 -> is_digit d2 -> is_digit d3 -> is_digit d4 ->
  let h := 10 * d1 + d2 in
  let m := 10 * d3 + d4 in
  setupRefreshAt (Str (hhmm d1 d2 d3 d4)) st
  = (if (h <=? 23) && (m <=? 59)
     then Normal (true, armed_at (Fin h) (Fin m) st)
     else Normal (false, with_status Invalid_refresh_at st))
  /\ Enabled_at (Fin h) (Fin m)
     = ("Auto-refresh enabled: Page will refresh at "
        +:+ two_digits d1 d2 +:+ ":" +:+ two_digits d3 d4 +:+ ":00")%string.
Proof.
  intros H1 H2 H3 H4 h m. split.
  - rewrite setupRefreshAt_spec. unfold at_rejected, at_hours, at_minutes, hhmm.
    cbn [map List.length Nat.eqb negb orb substring drop take Nat.sub].
    rewrite (parseInt_two_digits d1 d2 H1 H2), (parseInt_two_digits d3 d4 H3 H4).
    fold h m.
    assert (Hh : 0 <= h) by (unfold h, is_digit in *; lia).
    assert (Hm : 0 <= m) by (unfold m, is_digit in *; lia).
    unfold out_of_range, greaterOrEqual, lessOrEqual. cbn [lessThan equal value_of].
    destruct (Z.leb_spec h 23); destruct (Z.leb_spec m 59); cbn [andb];
      destruct (Z.ltb_spec h 0); try lia;
      destruct (Z.ltb_spec 24 h); try lia;
      destruct (Z.eqb_spec 24 h); try lia;
      destruct (Z.ltb_spec m 0); try lia;
      destruct (Z.ltb_spec 60 m); try lia;
      destruct (Z.eqb_spec 60 m); try lia; reflexivity.
  - unfold Enabled_at, h, m. rewrite !padStart_two_digits by assumption. reflexivity.
Qed.

(** [0905] is accepted as 09:05, [2400] is not. *)
Lemma refresh_at_four_digits_witness :
  let st := page_load [] 0 (fun _ => 0) in
  setupRefreshAt (Str (str "0905")) st = Normal (true, armed_at (Fin 9) (Fin 5) st)
  /\ setupRefreshAt (Str (str "2400")) st = Normal (false, with_status Invalid_refresh_at st)
  /\ Enabled_at (Fin 9) (Fin 5)
     = "Auto-refresh enabled: Page will refresh at 09:05:00"%string.
Proof.
  intros st.
  assert (Hd : forall d, 0 <= d < 10 -> is_digit d) by (intros d Hd; exact Hd).
  destruct (refresh_at_four_digits 0 9 0 5 st) as [Hrun Hmsg]; try (apply Hd; lia).
  destruct (refresh_at_four_digits 2 4 0 0 st) as [Hrun' _]; try (apply Hd; lia).
  split; [exact Hrun|]. split; [exact Hrun' | exact Hmsg].
Defined.

(** ** refresh_at: what is stored and when the timer fires *)

Lemma accepted_NaN_or_within (h m : number) :
  out_of_range h m = false -> NaN_or_within 23 h /\ NaN_or_within 59 m.
Proof.
  unfold out_of_range, greaterOrEqual, lessOrEqual, NaN_or_within.
  intros H. apply orb_false_elim in H as [H Hm2]. apply orb_false_elim in H as [H Hm1].
  apply orb_false_elim in H as [Hh1 Hh2].
  split.
  - destruct h as [| |z|[|]]; cbn [lessThan equal value_of orb] in Hh1, Hh2; try discriminate; auto.
    right. right. exists z. split; [|reflexivity].
    apply orb_false_elim in Hh2 as [Hlt Heq].
    apply Z.ltb_ge in Hh1, Hlt. apply Z.eqb_neq in Heq. lia.
  - destruct m as [| |z|[|]]; cbn [lessThan equal value_of orb] in Hm1, Hm2; try discriminate; auto.
    right. right. exists z. split; [|reflexivity].
    apply orb_false_elim in Hm2 as [Hlt Heq].
    apply Z.ltb_ge in Hm1, Hlt. apply Z.eqb_neq in Heq. lia.
Qed.

(** X5. Whenever [setupRefreshAt] returns [true], the argument was a string of
    four code units, the hour it stored is NaN, -0 or an integer from 0 to 23,
    the minute NaN, -0 or an integer from 0 to 59, and its handle is the one
    of the timer it has just armed. *)
Theorem refresh_at_stored_values (v : value) (st st' : state) :
  setupRefreshAt v st = Normal (true, st') ->
  exists (s : jsstring) (r : RefreshAt),
    v = Str s /\ List.length s = 4%nat
    /\ refreshAt (config (self st')) = Some r
    /\ NaN_or_within 23 (hours r) /\ NaN_or_within 59 (minutes r)
    /\ refreshAtTimeout (self st') = Some (next_handle (win st))
    /\ is_Some (timers (win st') !! next_handle (win st)).
Proof.
  destruct v as [|s]; [discriminate|].
  rewrite setupRefreshAt_spec. unfold at_rejected.
  destruct (Nat.eqb_spec (List.length s) 4) as [Hlen|]; [|discriminate].
  cbn [negb orb].
  destruct (out_of_range (at_hours s) (at_minutes s)) eqn:Hr; [discriminate|].
  intros H. injection H as <-.
  destruct (accepted_NaN_or_within _ _ Hr) as [Hh Hm].
  exists s, {| hours := at_hours s; minutes := at_minutes s;
               targetTime := target_time (LocalTZA (win st))
                               (Fin (clock (win st) (reads (win st))))
                               (Fin (clock (win st) (S (reads (win st)))))
                               (at_hours s) (at_minutes s) |}.
  repeat split; try assumption.
  cbn [armed_at win with_timer timers]. rewrite lookup_insert_eq. eexists; reflexivity.
Qed.

Lemma refresh_at_stored_values_witness :
  exists (s : jsstring) (r : RefreshAt),
    Str (str "2359") = Str s /\ List.length s = 4%nat
    /\ NaN_or_within 23 (hours r) /\ NaN_or_within 59 (minutes r).
Proof.
  destruct (refresh_at_stored_values (Str (str "2359")) (page_load [] 0 (fun _ => 0))
              (armed_at (Fin 23) (Fin 59) (page_load [] 0 (fun _ => 0))))
    as (s & r & Hv & Hlen & _ & Hh & Hm & _); [reflexivity|].
  exists s, r. repeat split; assumption.
Defined.

(** X6. For an hour in [0,23] and a minute in [0,59], the timeout of the
    timer [setupRefreshAt] arms is more than 0 and at most 24 hours, and the
    target time it stores is at h:m:00.000 of its local day.  (Same clock
    and zone conditions as for the target time.) *)
Theorem refresh_at_fires_within_a_day (s : jsstring) (st : state) (h m : Z) :
  let tza := LocalTZA (win st) in
  let now := clock (win st) (reads (win st)) in
  let now' := clock (win st) (S (reads (win st))) in
  List.length s = 4%nat ->
  at_hours s = Fin h -> at_minutes s = Fin m ->
  0 <= h <= 23 -> 0 <= m <= 59 ->
  now <= now' < now + msPerMinute ->
  Z.abs now + 3 * msPerDay <= maxTime ->
  Z.abs tza <= msPerDay ->
  exists (st' : state) (target delay : Z),
    setupRefreshAt (Str s) st = Normal (true, st')
    /\ refreshAt (config (self st'))
       = Some {| hours := Fin h; minutes := Fin m; targetTime := Fin target |}
    /\ pending st' (refreshAtTimeout (self st'))
       = Some {| handler := reload; timeout := Fin delay |}
    /\ delay = target - now
    /\ 0 < delay <= msPerDay
    /\ TimeWithinDay (LocalTime tza target) = h * msPerHour + m * msPerMinute.
Proof.
  intros tza now now' Hlen Hh Hm Hhr Hmr Hclock Hnow Htza.
  destruct (target_time_value tza now now' h m Hhr Hmr Hclock Hnow Htza) as [Ht Hfuture].
  exists (armed_at (Fin h) (Fin m) st), (next_occurrence tza now h m),
    (next_occurrence tza now h m - now).
  split.
  { rewrite setupRefreshAt_spec. unfold at_rejected.
    rewrite Hlen, Hh, Hm, (in_range_accepted h m Hhr Hmr). reflexivity. }
  unfold armed_at. cbn [self win config refreshAt refreshAtTimeout pending mbind option_bind
                        with_timer read_twice timers next_handle LocalTZA clock reads].
  fold tza now now'. rewrite Ht.
  assert (Hbound : 0 < next_occurrence tza now h m - now <= msPerDay
                   /\ TimeWithinDay (LocalTime tza (next_occurrence tza now h m))
                      = h * msPerHour + m * msPerMinute).
  { unfold next_occurrence, today_at, TimeWithinDay, LocalTime, Day,
      msPerDay, msPerHour, msPerMinute, maxTime in *.
    destruct (_ <? _) eqn:Hlt; [apply Z.ltb_lt in Hlt | apply Z.ltb_ge in Hlt];
      Z.div_mod_to_equations; lia. }
  destruct Hbound as [Hdelay Htod].
  split; [reflexivity|]. split.
  { rewrite lookup_insert_eq. do 2 f_equal. apply subtract_exact.
    pose proof two53_value. unfold msPerDay in *. lia. }
  split; [reflexivity|]. split; [exact Hdelay | exact Htod].
Qed.

(** [?refresh_at=1000] read at 10:00:00.000 waits the full 24 hours. *)
Lemma refresh_at_fires_within_a_day_witness :
  exists st' : state,
    setupRefreshAt (Str (str "1000")) (page_load [] 0 (fun _ => 1793700000000))
    = Normal (true, st')
    /\ pending st' (refreshAtTimeout (self st'))
       = Some {| handler := reload; timeout := Fin msPerDay |}.
Proof.
  destruct (refresh_at_fires_within_a_day (str "1000")
              (page_load [] 0 (fun _ => 1793700000000)) 10 0)
    as (st' & target & delay & Hrun & Hat & Htimer & _);
    try reflexivity; try (vm_compute; intuition discriminate).
  exists st'. split; [exact Hrun|].
  rewrite setupRefreshAt_spec in Hrun. injection Hrun as <-.
  vm_compute. reflexivity.
Defined.

(** ** init with cancel, getConfig and a second init *)

(** [init()] leaves the query string, the zone and the clock as they are. *)
Lemma after_init_window (st : state) :
  location_search (win (after_init st)) = location_search (win st)
  /\ LocalTZA (win (after_init st)) = LocalTZA (win st)
  /\ clock (win (after_init st)) = clock (win st).
Proof.
  unfold after_init, after_none, after_every.
  destruct (ToBoolean (query_every st));
    [destruct (every_rejected (parseInt (query_every st)))|];
    (destruct (query_at st) as [|[|c s]]; cbn [after_at ToBoolean negb andb];
     [| | destruct (at_rejected (c :: s))]); repeat split.
Qed.

Section FreshPageLifecycle.

Variable search : list (jsstring * jsstring).
Variable tza : Z.
Variable clk : nat -> Z.

Let every : value := param_every search.
Let at_ : value := param_at search.

(** The state after [init()] on the fresh page, case by case. *)
Ltac lifecycle_cases :=
  unfold after_init, after_none, after_every;
  change (query_every (page_load search tza clk)) with every;
  change (query_at (page_load search tza clk)) with at_;
  destruct (ToBoolean every) eqn:Hevery;
    [destruct (every_rejected (parseInt every)) eqn:Hrejected|];
  (destruct at_ as [|[|c s]] eqn:Hat; cbn [after_at ToBoolean negb andb];
   [| | destruct (at_rejected (c :: s)) eqn:Hat_rejected]).

(** X7. After [init()] on a fresh page, [cancel()] leaves no timer pending
    and both handles null, and [getConfig()] still returns the configuration
    that [init()] returned. *)
Theorem init_then_cancel :
  exists (c : Config) (st1 st2 : state),
    init (page_load search tza clk) = Normal (c, st1)
    /\ cancel st1 = Normal (tt, st2)
    /\ timers (win st2) = ∅
    /\ refreshEveryTimeout (self st2) = None
    /\ refreshAtTimeout (self st2) = None
    /\ getConfig st1 = Normal (c, st1)
    /\ getConfig st2 = Normal (c, st2).
Proof.
  exists (config (self (after_init (page_load search tza clk)))),
    (after_init (page_load search tza clk)),
    (cancel_at (cancel_every (after_init (page_load search tza clk)))).
  split; [apply init_spec|]. split; [apply cancel_spec|].
  lifecycle_cases; repeat split.
Qed.

(** X8. After [init()] on a fresh page, the configuration and the timers
    agree: a directive has a stored value exactly when it has a handle, every
    handle has a pending timer, the two handles differ, no other timer is
    pending, and there are one or two status messages. *)
Theorem init_config_matches_timers :
  exists (c : Config) (st' : state),
    init (page_load search tza clk) = Normal (c, st')
    /\ (refreshEvery c = None <-> refreshEveryTimeout (self st') = None)
    /\ (refreshAt c = None <-> refreshAtTimeout (self st') = None)
    /\ (refreshEveryTimeout (self st') = None
        <-> pending st' (refreshEveryTimeout (self st')) = None)
    /\ (refreshAtTimeout (self st') = None
        <-> pending st' (refreshAtTimeout (self st')) = None)
    /\ (refreshEveryTimeout (self st') = refreshAtTimeout (self st') ->
        refreshEveryTimeout (self st') = None)
    /\ size (timers (win st'))
       = (List.length (option_list (refreshEveryTimeout (self st')))
          + List.length (option_list (refreshAtTimeout (self st'))))%nat
    /\ (1 <= List.length (statusMessages c) <= 2)%nat.
Proof.
  exists (config (self (after_init (page_load search tza clk)))),
    (after_init (page_load search tza clk)).
  split; [apply init_spec|].
  lifecycle_cases; repeat split; try discriminate; try reflexivity; cbn; lia.
Qed.

(** X9. A second [init()] on the same object repeats the status messages and
    arms the timers again under new handles; the first handles are
    overwritten, so [cancel()] afterwards clears only the second timers and
    the timers of the first [init()] stay pending. *)
Theorem init_twice_leaves_first_timers :
  exists (c1 c2 : Config) (st1 st2 st3 : state),
    init (page_load search tza clk) = Normal (c1, st1)
    /\ init st1 = Normal (c2, st2)
    /\ cancel st2 = Normal (tt, st3)
    /\ statusMessages c2 = statusMessages c1 ++ statusMessages c1
    /\ size (timers (win st2)) = (2 * size (timers (win st1)))%nat
    /\ refreshEveryTimeout (self st3) = None
    /\ refreshAtTimeout (self st3) = None
    /\ timers (win st3) = timers (win st1)
    /\ size (timers (win st3))
       = ((if every_accepted (param_every search) then 1 else 0)
          + (if at_accepted (param_at search) then 1 else 0))%nat.
Proof.
  pose proof (after_init_window (page_load search tza clk)) as (Hsearch & _ & _).
  assert (Hsecond : after_init (after_init (page_load search tza clk))
                    = after_none every at_
                        (after_at at_
                           (after_every every (after_init (page_load search tza clk))))).
  { unfold after_init at 1. unfold query_every, query_at. rewrite Hsearch. reflexivity. }
  exists (config (self (after_init (page_load search tza clk)))),
    (config (self (after_init (after_init (page_load search tza clk))))),
    (after_init (page_load search tza clk)),
    (after_init (after_init (page_load search tza clk))),
    (cancel_at (cancel_every (after_init (after_init (page_load search tza clk))))).
  split; [apply init_spec|]. split; [apply init_spec|]. split; [apply cancel_spec|].
  rewrite Hsecond. clear Hsecond Hsearch.
  unfold every_accepted, at_accepted. fold every at_.
  lifecycle_cases; repeat split.
Qed.

End FreshPageLifecycle.

(** A page without parameters: both handles stay null, no timer, one
    message. *)
Lemma init_config_matches_timers_witness :
  exists (c : Config) (st' : state),
    init (page_load [] 0 (fun _ => 0)) = Normal (c, st')
    /\ refreshEvery c = None
    /\ refreshEveryTimeout (self st') = None.
Proof.
  destruct (init_config_matches_timers [] 0 (fun _ => 0))
    as (c & st' & Hinit & Hevery & _ & _ & _ & Hsame & _).
  exists c, st'. split; [exact Hinit|].
  assert (Hh : refreshEveryTimeout (self st') = None).
  { apply Hsame. rewrite init_spec in Hinit. injection Hinit as <- <-. reflexivity. }
  split; [apply Hevery, Hh | exact Hh].
Defined.

(** ** The setup methods called directly *)



(** ** Values that pass the tests without being a time or a duration *)

Lemma NaN_or_within_accepted (h m : number) :
  NaN_or_within 23 h -> NaN_or_within 59 m -> out_of_range h m = false.
Proof.
  unfold NaN_or_within, out_of_range, greaterOrEqual, lessOrEqual.
  intros [->|[->|(z & Hz & ->)]] [->|[->|(z' & Hz' & ->)]];
    cbn [lessThan equal value_of orb]; try reflexivity;
    repeat match goal with
      | |- context [?a <? ?b] => destruct (Z.ltb_spec a b); try lia
      | |- context [?a =? ?b] => destruct (Z.eqb_spec a b); try lia
      end; reflexivity.
Qed.

(** X11. A four-character [refresh_at] value one half of which does not parse
    (NaN) passes the range test as soon as the other half does: the method
    returns [true], and the target time it stores and the timeout of the timer
    it arms are NaN. *)
Theorem refresh_at_unparsed_half_accepted (s : jsstring) (st : state) :
  List.length s = 4%nat ->
  (at_hours s = NaN /\ NaN_or_within 59 (at_minutes s))
  \/ (NaN_or_within 23 (at_hours s) /\ at_minutes s = NaN) ->
  exists st' : state,
    setupRefreshAt (Str s) st = Normal (true, st')
    /\ refreshAt (config (self st'))
       = Some {| hours := at_hours s; minutes := at_minutes s; targetTime := NaN |}
    /\ pending st' (refreshAtTimeout (self st'))
       = Some {| handler := reload; timeout := NaN |}.
Proof.
  intros Hlen Hhalf.
  assert (Hacc : out_of_range (at_hours s) (at_minutes s) = false).
  { apply NaN_or_within_accepted; destruct Hhalf as [[Hh Hm]|[Hh Hm]];
      try assumption; rewrite ?Hh, ?Hm; left; reflexivity. }
  assert (Htarget : forall tza now t0,
             target_time tza (Fin now) (Fin t0) (at_hours s) (at_minutes s) = NaN).
  { intros tza now t0. unfold target_time, setHours, MakeTime.
    destruct Hhalf as [[-> _]|[Hh ->]]; [reflexivity|].
    destruct Hh as [->|[->|(z & _ & ->)]]; reflexivity. }
  exists (armed_at (at_hours s) (at_minutes s) st).
  split.
  { rewrite setupRefreshAt_spec. unfold at_rejected. rewrite Hlen, Hacc. reflexivity. }
  unfold armed_at. cbn [self win config refreshAt refreshAtTimeout pending mbind option_bind
                        with_timer read_twice timers next_handle LocalTZA clock reads].
  rewrite Htarget, lookup_insert_eq. split; reflexivity.
Qed.

(** [12xy]: hour 12, minute NaN. *)
Lemma refresh_at_unparsed_half_accepted_witness :
  exists st' : state,
    setupRefreshAt (Str (str "12xy")) (page_load [] 0 (fun _ => 0)) = Normal (true, st')
    /\ refreshAt (config (self st'))
       = Some {| hours := Fin 12; minutes := NaN; targetTime := NaN |}.
Proof.
  destruct (refresh_at_unparsed_half_accepted (str "12xy") (page_load [] 0 (fun _ => 0)))
    as (st' & Hrun & Hat & _).
  - reflexivity.
  - right. split; [|reflexivity].
    right. right. exists 12. split; [lia | reflexivity].
  - exists st'. split; [exact Hrun | exact Hat].
Defined.

Lemma round_magnitude_large (a : Z) : two1024 <= a -> two1024 <= round_magnitude a.
Proof.
  intros Ha. unfold two1024 in *.
  assert (Hlog : 1024 <= Z.log2 a) by (apply Z.log2_le_pow2; lia).
  unfold round_magnitude.
  destruct (Z.leb_spec (Z.log2 a + 1) 53); [lia|].
  set (sh := Z.log2 a + 1 - 53).
  assert (Hsh : 0 <= sh) by (unfold sh; lia).
  assert (Hq : 2 ^ 52 <= Z.shiftr a sh).
  { rewrite Z.shiftr_div_pow2 by lia.
    apply Z.div_le_lower_bound; [apply Z.pow_pos_nonneg; lia|].
    rewrite Z.mul_comm, <- Z.pow_add_r by lia.
    replace (52 + sh) with (Z.log2 a) by (unfold sh; lia).
    apply Z.log2_spec. lia. }
  rewrite Z.shiftl_mul_pow2 by lia.
  transitivity (2 ^ 52 * 2 ^ sh).
  - rewrite <- Z.pow_add_r by lia. apply Z.pow_le_mono_r; unfold sh; lia.
  - apply Z.mul_le_mono_nonneg_r; [apply Z.pow_nonneg; lia|].
    destruct (_ || _); lia.
Qed.

(** X12. A numeral of 2^1024 or more is not rejected: it parses to +Infinity,
    which is stored as the number of seconds, printed in the confirmation,
    and passed on, times 1000, as the timeout of the timer. *)
Theorem refresh_every_huge_is_Infinity (N : Z) (st : state) :
  2 ^ 1024 <= N ->
  exists st' : state,
    setupRefreshEvery (Str (numeral N)) st = Normal (true, st')
    /\ refreshEvery (config (self st')) = Some (Inf false)
    /\ pending st' (refreshEveryTimeout (self st'))
       = Some {| handler := reload; timeout := Inf false |}
    /\ messages st'
       = messages st
         ++ ["Auto-refresh enabled: Page will refresh every Infinity seconds"%string].
Proof.
  intros HN.
  assert (Hpos : 0 < N).
  { pose proof (Z.pow_pos_nonneg 2 1024 ltac:(lia) ltac:(lia)). lia. }
  assert (Hinf : round_to_double N = Inf false).
  { unfold round_to_double.
    destruct (Z.eqb_spec N 0); [lia|].
    pose proof (round_magnitude_large (Z.abs N)) as Hm. unfold two1024 in *.
    destruct (Z.leb_spec (2 ^ 1024) (round_magnitude (Z.abs N))); [|lia].
    destruct (Z.ltb_spec N 0); [lia | reflexivity]. }
  exists (armed_every (Inf false) st).
  rewrite setupRefreshEvery_spec, parseInt_numeral, Hinf by exact Hpos.
  split; [reflexivity|]. split; [reflexivity|].
  unfold armed_every. cbn [self win config refreshEveryTimeout pending mbind option_bind
                           with_timer timers statusMessages].
  rewrite lookup_insert_eq. split; reflexivity.
Qed.

Lemma refresh_every_huge_is_Infinity_witness :
  exists st' : state,
    setupRefreshEvery (Str (numeral (10 ^ 309))) (page_load [] 0 (fun _ => 0))
    = Normal (true, st')
    /\ refreshEvery (config (self st')) = Some (Inf false).
Proof.
  destruct (refresh_every_huge_is_Infinity (10 ^ 309) (page_load [] 0 (fun _ => 0)))
    as (st' & Hrun & Hstored & _).
  - vm_compute. discriminate.
  - exists st'. split; [exact Hrun | exact Hstored].
Defined.
